(** * Products, terms and credit quotes: the HTTP handlers of [index.js]

    The program is an Express router of eight handlers over two tables of a
    remote store ([products], [terms]).  Every handler has the same shape:
    read the request, validate, await one or two store calls, shape the
    response; the whole body sits in a [try]/[catch] whose handler logs and
    answers 500.

    The development has four layers:
    - [Js]: the JavaScript values the handlers touch (JSON values and
      [undefined]), truthiness, property access and the arithmetic
      operators, over IEEE binary64 numbers;
    - [Store]: the queries the handlers build with the store client, and a
      reference model of the remote store that answers them;
    - [Prog]: handler bodies as trees of awaited store calls, with
      [throw] and [try]/[catch], and their runs against the store;
    - [Api]: the eight handlers, transcribed from the source. *)

From Stdlib Require Import Floats ZArith.
From stdpp Require Import gmap strings list fin_maps.

Set Warnings "-register-all,-inexact-float".
Set Default Proof Using "Type".

Local Open Scope string_scope.

(** ** JavaScript values *)

Module Js.

(** A request body is parsed JSON; a destructured field that is missing is
    [undefined].  Numbers are binary64 floats, objects are finite maps from
    property names to values. *)
Inductive jsval : Type :=
| JUndefined
| JNull
| JBool (b : bool)
| JNumber (x : float)
| JString (s : string)
| JArray (l : list jsval)
| JObject (m : gmap string jsval).

(** What a [throw] carries: the error object of a store response, or the
    [TypeError] of a property read on [null] or [undefined]. *)
Record store_error := StoreError { code : string; message : string }.

Inductive exn : Type :=
| TypeError
| Thrown (e : store_error).

(** [ToBoolean]: [undefined], [null], [false], [+0], [-0], [NaN] and the
    empty string are falsy, everything else is truthy. *)
Definition truthy (v : jsval) : bool :=
  match v with
  | JUndefined | JNull => false
  | JBool b => b
  | JNumber x => negb ((x =? 0)%float || is_nan x)
  | JString s => negb (String.eqb s "")
  | JArray _ | JObject _ => true
  end.

(** [v.k] for the property names the handlers read ([sku], [name],
    [description], [price], [weeks], [normal_rate], [punctual_rate]); none
    of them is inherited from a prototype, so only an object's own
    properties can answer.  Reading a property of [null] or [undefined]
    throws. *)
Definition get_prop (v : jsval) (k : string) : exn + jsval :=
  match v with
  | JUndefined | JNull => inl TypeError
  | JObject m => inr (default JUndefined (m !! k))
  | _ => inr JUndefined
  end.

(** [v[0]]. *)
Definition get_index0 (v : jsval) : exn + jsval :=
  match v with
  | JUndefined | JNull => inl TypeError
  | JArray l => inr (default JUndefined (head l))
  | JObject m => inr (default JUndefined (m !! "0"))
  | JString (String c _) => inr (JString (String c EmptyString))
  | _ => inr JUndefined
  end.

Section Conversions.

(** The two conversions between numbers and their decimal text are the
    language's own ([Number::toString], [StringToNumber]); the handlers do
    not depend on what they compute, so they stay parameters. *)
Variable NumberToString : float → string.
Variable StringToNumber : string → float.

(** [ToString] after [ToPrimitive]: an array joins its elements with
    commas ([null] and [undefined] elements print as nothing), a plain
    object prints as ["[object Object]"]. *)
Fixpoint ToString (v : jsval) : string :=
  match v with
  | JUndefined => "undefined"
  | JNull => "null"
  | JBool true => "true"
  | JBool false => "false"
  | JNumber x => NumberToString x
  | JString s => s
  | JArray l =>
      let elem w := match w with JUndefined | JNull => "" | _ => ToString w end in
      String.concat "," (map elem l)
  | JObject _ => "[object Object]"
  end.

Definition ToNumber (v : jsval) : float :=
  match v with
  | JUndefined => nan
  | JNull => 0%float
  | JBool true => 1%float
  | JBool false => 0%float
  | JNumber x => x
  | JString s => StringToNumber s
  | JArray _ | JObject _ => StringToNumber (ToString v)
  end.

Definition is_stringy (v : jsval) : bool :=
  match v with
  | JString _ | JArray _ | JObject _ => true
  | _ => false
  end.

(** [a * b] and [a / b] convert both operands to numbers. *)
Definition js_mul (a b : jsval) : jsval := JNumber (ToNumber a * ToNumber b)%float.
Definition js_div (a b : jsval) : jsval := JNumber (ToNumber a / ToNumber b)%float.

(** [a + b] concatenates as soon as one operand is a string after
    [ToPrimitive], and adds numbers otherwise. *)
Definition js_add (a b : jsval) : jsval :=
  if is_stringy a || is_stringy b
  then JString (ToString a ++ ToString b)
  else JNumber (ToNumber a + ToNumber b)%float.

End Conversions.

End Js.

Export Js.

(** ** The remote store *)

Module Store.

Inductive table : Type := products | terms.

(** The calls the handlers build with the store client, one constructor
    per builder chain that occurs in the source:
    - [from(t).select('*')]
    - [from(t).select('*').eq(col, v).single()]
    - [from(t).insert(rows).select()]
    - [from(t).update(patch).eq(col, v).select()]
    - [from(t).delete().eq(col, v)] *)
Inductive query : Type :=
| SelectAll (t : table)
| SelectSingle (t : table) (col : string) (v : jsval)
| InsertSelect (t : table) (rows : list (gmap string jsval))
| UpdateSelect (t : table) (patch : gmap string jsval) (col : string) (v : jsval)
| DeleteWhere (t : table) (col : string) (v : jsval).

(** What an awaited call resolves to: [{ data, error }], with [error]
    either [null] or an error object. *)
Record response := Response { data : jsval; error : option store_error }.

Definition is_read (q : query) : bool :=
  match q with
  | SelectAll _ | SelectSingle _ _ _ => true
  | _ => false
  end.

(** Modelled from the spec: the remote relational store and its client
    library, which are not part of the repository.  Section 6 of the
    specification describes the collaborator as "table-scoped
    select/insert/update/delete with equality filters and single-row fetch
    semantics (returns a distinguishable no-rows condition)".  A table is
    the list of its rows, a row is the map of its columns. *)
Record db := Db { products_rows : list (gmap string jsval);
                  terms_rows : list (gmap string jsval) }.

(** Modelled from the spec: the rows of one table, read and replaced. *)
Definition rows_of (t : table) (s : db) : list (gmap string jsval) :=
  match t with
  | products => products_rows s
  | terms => terms_rows s
  end.

(** Modelled from the spec: see [rows_of]. *)
Definition with_rows (t : table) (l : list (gmap string jsval)) (s : db) : db :=
  match t with
  | products => Db l (terms_rows s)
  | terms => Db (products_rows s) l
  end.

(** Modelled from the spec: the equality filter compares a cell with the
    filter value as scalars of the same kind; numbers compare as numbers
    (so [NaN] matches nothing), and [null] matches nothing. *)
Definition eq_match (cell v : jsval) : bool :=
  match cell, v with
  | JBool a, JBool b => Bool.eqb a b
  | JNumber x, JNumber y => (x =? y)%float
  | JString a, JString b => String.eqb a b
  | _, _ => false
  end.

(** Modelled from the spec: [.eq(col, v)] keeps the rows whose column
    [col] is there and equal to [v]. *)
Definition matches (col : string) (v : jsval) (r : gmap string jsval) : bool :=
  match r !! col with
  | Some cell => eq_match cell v
  | None => false
  end.

(** Modelled from the spec: the rows an equality filter selects. *)
Definition select_eq (col : string) (v : jsval) (l : list (gmap string jsval))
  : list (gmap string jsval) :=
  filter (λ r, matches col v r) l.

Definition is_undefined (v : jsval) : bool :=
  match v with JUndefined => true | _ => false end.

(** Modelled from the spec: a payload travels as JSON, which drops the
    properties whose value is [undefined]. *)
Definition wire (o : gmap string jsval) : gmap string jsval :=
  filter (λ kv, is_undefined kv.2 = false) o.

(** Modelled from the spec: the error the store reports when a
    single-row fetch finds no row (or more than one).  The code is the one
    the source compares with; the message is the store's. *)
Definition PGRST116 : store_error :=
  StoreError "PGRST116" "JSON object requested, multiple (or no) rows returned".

(** The two shapes of a response: data without error, error without
    data. *)
Definition ok (d : jsval) : response := Response d None.
Definition failed (e : store_error) : response := Response JNull (Some e).

(** Modelled from the spec: an update overwrites the columns of the
    payload in every matching row and leaves the other columns alone. *)
Definition patch_row (patch : gmap string jsval) (col : string) (v : jsval)
    (r : gmap string jsval) : gmap string jsval :=
  if matches col v r then wire patch ∪ r else r.

(** Modelled from the spec: what each call answers and how it changes
    the tables.  Selecting reads; a single-row fetch answers the row when
    exactly one matches and the no-rows error otherwise; inserting appends
    and answers the new rows; updating and deleting act on the matching
    rows and report no error when there is none. *)
Definition exec (q : query) (s : db) : response * db :=
  match q with
  | SelectAll t => (ok (JArray (JObject <$> rows_of t s)), s)
  | SelectSingle t col v =>
      match select_eq col v (rows_of t s) with
      | [r] => (ok (JObject r), s)
      | _ => (failed PGRST116, s)
      end
  | InsertSelect t rows =>
      let new := wire <$> rows in
      (ok (JArray (JObject <$> new)), with_rows t (rows_of t s ++ new) s)
  | UpdateSelect t patch col v =>
      let hit := select_eq col v (rows_of t s) in
      (ok (JArray (JObject <$> (patch_row patch col v <$> hit))),
       with_rows t (patch_row patch col v <$> rows_of t s) s)
  | DeleteWhere t col v =>
      (ok JNull, with_rows t (filter (λ r, ¬ matches col v r) (rows_of t s)) s)
  end.

(** Modelled from the spec: any call may also fail on its own (network,
    constraint, permission); the store then reports the error and nothing
    changes.  [fault] is the failure injected into one call, if any. *)
Definition exec_faulty (fault : option store_error) (q : query) (s : db)
  : response * db :=
  match fault with
  | Some e => (failed e, s)
  | None => exec q s
  end.

End Store.

Export Store.

(** ** Handler bodies and their runs *)

Module Prog.

(** A handler body is a tree: it returns, throws, awaits a store call and
    goes on with the response, or writes to the error console and goes
    on. *)
Inductive prog (A : Type) : Type :=
| Ret (a : A)
| Throw (e : exn)
| Await (q : query) (k : response → prog A)
| ConsoleError (label : string) (e : exn) (k : prog A).

Arguments Ret {A} a.
Arguments Throw {A} e.
Arguments Await {A} q k.
Arguments ConsoleError {A} label e k.

Fixpoint bind {A B} (p : prog A) (f : A → prog B) : prog B :=
  match p with
  | Ret a => f a
  | Throw e => Throw e
  | Await q k => Await q (λ r, bind (k r) f)
  | ConsoleError l e k => ConsoleError l e (bind k f)
  end.

#[global] Instance prog_ret : MRet prog := @Ret.
#[global] Instance prog_bind : MBind prog := λ A B f p, bind p f.

(** [try { p } catch (error) { h error }]. *)
Fixpoint try_catch {A} (p : prog A) (h : exn → prog A) : prog A :=
  match p with
  | Ret a => Ret a
  | Throw e => h e
  | Await q k => Await q (λ r, try_catch (k r) h)
  | ConsoleError l e k => ConsoleError l e (try_catch k h)
  end.

(** A property read that may throw. *)
Definition lift {A} (x : exn + A) : prog A :=
  match x with
  | inl e => Throw e
  | inr a => Ret a
  end.

(** [if (error) throw error;] *)
Definition throw_if_error (r : response) : prog unit :=
  match error r with
  | Some e => Throw (Thrown e)
  | None => Ret tt
  end.

(** What a run leaves behind, in order: the store calls with their
    responses, and the lines on the error console. *)
Inductive event : Type :=
| EvStore (q : query) (r : response)
| EvLog (label : string) (e : exn).

(** The run of a body against the store.  [faults] holds, call by call,
    the failure injected into that call, if any; past its end no call
    fails on its own. *)
Fixpoint run {A} (p : prog A) (faults : list (option store_error)) (s : db)
  : (exn + A) * db * list event :=
  match p with
  | Ret a => (inr a, s, [])
  | Throw e => (inl e, s, [])
  | Await q k =>
      let '(r, s1) := exec_faulty (default None (head faults)) q s in
      let '(a, s2, tr) := run (k r) (tail faults) s1 in
      (a, s2, EvStore q r :: tr)
  | ConsoleError l e k =>
      let '(a, s1, tr) := run k faults s in
      (a, s1, EvLog l e :: tr)
  end.

Definition store_calls (tr : list event) : list (query * response) :=
  omap (λ ev, match ev with EvStore q r => Some (q, r) | EvLog _ _ => None end) tr.

End Prog.

Export Prog.

(** ** The handlers *)

Module Api.

(** The part of a request the handlers read: the [:sku] segment of the
    path ([req.params.sku], a string) and the parsed body ([req.body]). *)
Record request := Request { params_sku : string; body : jsval }.

(** [res.status(n).json(v)] answers [Some v]; [res.status(n).send()]
    answers no body. *)
Record http_response := HttpResponse { status : Z; payload : option jsval }.

Definition json (n : Z) (v : jsval) : http_response := HttpResponse n (Some v).
Definition send (n : Z) : http_response := HttpResponse n None.

(** [{ error: msg }] *)
Definition error_body (msg : string) : jsval := JObject {[ "error" := JString msg ]}.

(** The texts of the console labels and of the 500 answers.  The two
    copies of the program differ in nothing else. *)
Record texts := Texts {
  log_fetch_products : string;  fail_fetch_products : string;
  log_fetch_product : string;   fail_fetch_product : string;
  log_create_product : string;  fail_create_product : string;
  log_update_product : string;  fail_update_product : string;
  log_delete_product : string;  fail_delete_product : string;
  log_fetch_terms : string;     fail_fetch_terms : string;
  terms_required : string;
  log_create_term : string;     fail_create_term : string;
  log_quote : string;           fail_quote : string }.

Declare Scope js_scope.
Delimit Scope js_scope with js.

Definition index_js : texts := {|
  log_fetch_products := "Error fetching products:";
  fail_fetch_products := "Failed to fetch products";
  log_fetch_product := "Error fetching product:";
  fail_fetch_product := "Failed to fetch product";
  log_create_product := "Error creating product:";
  fail_create_product := "Failed to create product";
  log_update_product := "Error updating product:";
  fail_update_product := "Failed to update product";
  log_delete_product := "Error deleting product:";
  fail_delete_product := "Failed to delete product";
  log_fetch_terms := "Error fetching terms:";
  fail_fetch_terms := "Failed to fetch terms";
  terms_required := "Weeks, normal_rate, and punctual_rate are required";
  log_create_term := "Error creating term:";
  fail_create_term := "Failed to create term";
  log_quote := "Error calculating quote:";
  fail_quote := "Failed to calculate quote" |}.

Definition part_000 : texts := {|
  log_fetch_products := "Error al obtener los productos:";
  fail_fetch_products := "Error al obtener los productos";
  log_fetch_product := "Error al obtener el producto:";
  fail_fetch_product := "Error al obtener el producto";
  log_create_product := "Error al crear el producto:";
  fail_create_product := "Error al crear el producto";
  log_update_product := "Error al actualizar el producto:";
  fail_update_product := "Error al actualizar el producto";
  log_delete_product := "Error al eliminar el producto:";
  fail_delete_product := "Error al eliminar el producto";
  log_fetch_terms := "Error al obtener los términos:";
  fail_fetch_terms := "Error al obtener los términos";
  terms_required := "Semanas, tasa normal y tasa puntual son requeridos";
  log_create_term := "Error al crear el término:";
  fail_create_term := "Error al crear el término";
  log_quote := "Error al calcular la cotización:";
  fail_quote := "Error al calcular la cotización" |}.

Section Handlers.

Variable NumberToString : float → string.
Variable StringToNumber : string → float.
Variable T : texts.

Notation "a * b" := (js_mul NumberToString StringToNumber a b) : js_scope.
Notation "a + b" := (js_add NumberToString StringToNumber a b) : js_scope.
Notation "a / b" := (js_div NumberToString StringToNumber a b) : js_scope.

(** [await supabase.from(..)...] *)
Definition await (q : query) : prog response := Await q Ret.

(** [catch (error) { console.error(label, error); res.status(500).json({ error: msg }) }] *)
Definition catch_500 (label msg : string) (e : exn) : prog http_response :=
  ConsoleError label e (Ret (json 500 (error_body msg))).

(** 1. [GET /api/products] *)
Definition get_products : prog http_response :=
  try_catch
    (r ← await (SelectAll products);
     throw_if_error r;;
     Ret (json 200 (data r)))
    (catch_500 (log_fetch_products T) (fail_fetch_products T)).

(** 2. [GET /api/products/:sku] *)
Definition get_product_by_sku (req : request) : prog http_response :=
  try_catch
    (let sku := JString (params_sku req) in
     r ← await (SelectSingle products "sku" sku);
     match error r with
     | Some e =>
         if String.eqb (code e) "PGRST116"
         then Ret (json 404 (error_body "Producto no encontrado."))
         else Throw (Thrown e)
     | None => Ret (json 200 (data r))
     end)
    (catch_500 (log_fetch_product T) (fail_fetch_product T)).

(** 3. [POST /api/products] *)
Definition post_products (req : request) : prog http_response :=
  try_catch
    (sku ← lift (get_prop (body req) "sku");
     name ← lift (get_prop (body req) "name");
     description ← lift (get_prop (body req) "description");
     price ← lift (get_prop (body req) "price");
     if negb (truthy sku) || negb (truthy name) || negb (truthy price)
     then Ret (json 400 (error_body "SKU, nombre y precio son requeridos."))
     else
       r ← await (InsertSelect products
                    [ {[ "sku" := sku; "name" := name;
                         "description" := description; "price" := price ]} ]);
       throw_if_error r;;
       created ← lift (get_index0 (data r));
       Ret (json 201 created))
    (catch_500 (log_create_product T) (fail_create_product T)).

(** 4. [PUT /api/products/:sku] *)
Definition put_product (req : request) : prog http_response :=
  try_catch
    (let sku := JString (params_sku req) in
     name ← lift (get_prop (body req) "name");
     description ← lift (get_prop (body req) "description");
     price ← lift (get_prop (body req) "price");
     if negb (truthy name) || negb (truthy price)
     then Ret (json 400 (error_body "Nombre y precio son requeridos"))
     else
       r ← await (UpdateSelect products
                    {[ "name" := name; "description" := description; "price" := price ]}
                    "sku" sku);
       throw_if_error r;;
       updated ← lift (get_index0 (data r));
       Ret (json 200 updated))
    (catch_500 (log_update_product T) (fail_update_product T)).

(** 5. [DELETE /api/products/:sku] *)
Definition delete_product (req : request) : prog http_response :=
  try_catch
    (let sku := JString (params_sku req) in
     r ← await (DeleteWhere products "sku" sku);
     throw_if_error r;;
     Ret (send 204))
    (catch_500 (log_delete_product T) (fail_delete_product T)).

(** 6. [GET /api/terms] *)
Definition get_terms : prog http_response :=
  try_catch
    (r ← await (SelectAll terms);
     throw_if_error r;;
     Ret (json 200 (data r)))
    (catch_500 (log_fetch_terms T) (fail_fetch_terms T)).

(** 7. [POST /api/terms] *)
Definition post_terms (req : request) : prog http_response :=
  try_catch
    (weeks ← lift (get_prop (body req) "weeks");
     normal_rate ← lift (get_prop (body req) "normal_rate");
     punctual_rate ← lift (get_prop (body req) "punctual_rate");
     if negb (truthy weeks) || negb (truthy normal_rate) || negb (truthy punctual_rate)
     then Ret (json 400 (error_body (terms_required T)))
     else
       r ← await (InsertSelect terms
                    [ {[ "weeks" := weeks; "normal_rate" := normal_rate;
                         "punctual_rate" := punctual_rate ]} ]);
       throw_if_error r;;
       created ← lift (get_index0 (data r));
       Ret (json 201 created))
    (catch_500 (log_create_term T) (fail_create_term T)).

(** 8. [POST /api/quote] *)
Definition post_quote (req : request) : prog http_response :=
  try_catch
    (sku ← lift (get_prop (body req) "sku");
     weeks ← lift (get_prop (body req) "weeks");
     r1 ← await (SelectSingle products "sku" sku);
     throw_if_error r1;;
     let product := data r1 in
     r2 ← await (SelectSingle terms "weeks" weeks);
     throw_if_error r2;;
     let term := data r2 in
     product_price ← lift (get_prop product "price");
     term_normal_rate ← lift (get_prop term "normal_rate");
     let normalPayment := ((product_price * term_normal_rate) + product_price) / weeks in
     term_punctual_rate ← lift (get_prop term "punctual_rate");
     let punctualPayment := ((product_price * term_punctual_rate) + product_price) / weeks in
     Ret (json 200 (JObject {[ "normalPayment" := normalPayment;
                               "punctualPayment" := punctualPayment ]})))%js
    (catch_500 (log_quote T) (fail_quote T)).

End Handlers.

End Api.

Export Api.

(** ** The routing table *)

Module Router.

(** The eight registrations of the program, in the order of the source:
    [app.get('/api/products')], [app.get('/api/products/:sku')],
    [app.post('/api/products')], [app.put('/api/products/:sku')],
    [app.delete('/api/products/:sku')], [app.get('/api/terms')],
    [app.post('/api/terms')], [app.post('/api/quote')]. *)
Inductive route : Type :=
| GetProducts
| GetProductBySku
| PostProducts
| PutProduct
| DeleteProduct
| GetTerms
| PostTerms
| PostQuote.

Section Routes.

Variable NumberToString : float → string.
Variable StringToNumber : string → float.
Variable T : texts.

(** The handler registered for each route. *)
Definition handler (rt : route) (req : request) : prog http_response :=
  match rt with
  | GetProducts => get_products T
  | GetProductBySku => get_product_by_sku T req
  | PostProducts => post_products T req
  | PutProduct => put_product T req
  | DeleteProduct => delete_product T req
  | GetTerms => get_terms T
  | PostTerms => post_terms T req
  | PostQuote => post_quote NumberToString StringToNumber T req
  end.

(** The label each handler's [catch] writes to the console, and the
    message of its 500 answer. *)
Definition log_text (rt : route) : string :=
  match rt with
  | GetProducts => log_fetch_products T
  | GetProductBySku => log_fetch_product T
  | PostProducts => log_create_product T
  | PutProduct => log_update_product T
  | DeleteProduct => log_delete_product T
  | GetTerms => log_fetch_terms T
  | PostTerms => log_create_term T
  | PostQuote => log_quote T
  end.

Definition fail_text (rt : route) : string :=
  match rt with
  | GetProducts => fail_fetch_products T
  | GetProductBySku => fail_fetch_product T
  | PostProducts => fail_create_product T
  | PutProduct => fail_update_product T
  | DeleteProduct => fail_delete_product T
  | GetTerms => fail_fetch_terms T
  | PostTerms => fail_create_term T
  | PostQuote => fail_quote T
  end.

End Routes.

(** The status codes that occur in each handler: the literals of its
    [res.status(..)] calls. *)
Definition statuses (rt : route) : list Z :=
  match rt with
  | GetProducts | GetTerms | PostQuote => [200; 500]
  | GetProductBySku => [200; 404; 500]
  | PostProducts | PostTerms => [201; 400; 500]
  | PutProduct => [200; 400; 500]
  | DeleteProduct => [204; 500]
  end%Z.

(** The table a handler inserts into, updates or deletes from, if any. *)
Definition written_table (rt : route) : option table :=
  match rt with
  | PostProducts | PutProduct | DeleteProduct => Some products
  | PostTerms => Some terms
  | GetProducts | GetProductBySku | GetTerms | PostQuote => None
  end.

(** The number of [await]s on the longest path through a handler. *)
Definition round_trips (rt : route) : nat :=
  match rt with
  | PostQuote => 2
  | _ => 1
  end.

(** Whether the handler destructures [req.body]. *)
Definition reads_body (rt : route) : bool :=
  match rt with
  | PostProducts | PutProduct | PostTerms | PostQuote => true
  | _ => false
  end.

End Router.

Export Router.

(** ** Reading a handler's tree *)

(** Every value the tree can return satisfies [P]. *)
Fixpoint every_ret {A} (P : A → Prop) (p : prog A) : Prop :=
  match p with
  | Ret a => P a
  | Throw _ => True
  | Await _ k => ∀ r, every_ret P (k r)
  | ConsoleError _ _ k => every_ret P k
  end.

(** Every call the tree can await satisfies [Q]. *)
Fixpoint every_await {A} (Q : query → Prop) (p : prog A) : Prop :=
  match p with
  | Ret _ | Throw _ => True
  | Await q k => Q q ∧ ∀ r, every_await Q (k r)
  | ConsoleError _ _ k => every_await Q k
  end.

(** The tree never writes to the console. *)
Fixpoint silent {A} (p : prog A) : Prop :=
  match p with
  | Ret _ | Throw _ => True
  | Await _ k => ∀ r, silent (k r)
  | ConsoleError _ _ _ => False
  end.

(** No path through the tree awaits more than [n] calls. *)
Fixpoint awaits_at_most {A} (n : nat) (p : prog A) : Prop :=
  match p with
  | Ret _ | Throw _ => True
  | Await _ k =>
      match n with
      | O => False
      | S m => ∀ r, awaits_at_most m (k r)
      end
  | ConsoleError _ _ k => awaits_at_most n k
  end.

(** The table a call is scoped to. *)
Definition query_table (q : query) : table :=
  match q with
  | SelectAll t | SelectSingle t _ _ | InsertSelect t _
  | UpdateSelect t _ _ _ | DeleteWhere t _ _ => t
  end.

(** The lines a run wrote to the error console. *)
Definition logs (tr : list event) : list (string * exn) :=
  omap (λ ev, match ev with EvLog l e => Some (l, e) | EvStore _ _ => None end) tr.

(** ** Reading a run *)

Definition answer {A} (x : (exn + A) * db * list event) : exn + A := x.1.1.
Definition store_after {A} (x : (exn + A) * db * list event) : db := x.1.2.
Definition trace_of {A} (x : (exn + A) * db * list event) : list event := x.2.

(** No call of the run fails on its own. *)
Definition fault_free (faults : list (option store_error)) : Prop :=
  Forall (λ f, f = None) faults.


(** The [sku] column of a table, row by row. *)
Definition sku_column (l : list (gmap string jsval)) : list (option jsval) :=
  (λ r : gmap string jsval, r !! "sku") <$> l.

(** ** Sample data *)

Module Demo.

(** Text conversions for the samples, whose arithmetic is on numbers only. *)
Definition number_text (x : float) : string := "".
Definition text_number (s : string) : float := nan.

Definition phone : gmap string jsval :=
  {[ "sku" := JString "A1"; "name" := JString "Phone"; "price" := JNumber 1000 ]}.

Definition four_weeks : gmap string jsval :=
  {[ "weeks" := JNumber 4; "normal_rate" := JNumber 0.1; "punctual_rate" := JNumber 0.05 ]}.

Definition zero_weeks : gmap string jsval :=
  {[ "weeks" := JNumber 0; "normal_rate" := JNumber 0.1; "punctual_rate" := JNumber 0.05 ]}.

Definition shop : db := Db [phone] [four_weeks; zero_weeks].

Definition quote_phone_4 : request :=
  Request "" (JObject {[ "sku" := JString "A1"; "weeks" := JNumber 4 ]}).


Definition quote_unknown_sku : request :=
  Request "" (JObject {[ "sku" := JString "Z9"; "weeks" := JNumber 4 ]}).

Definition create_free_phone : request :=
  Request "" (JObject {[ "sku" := JString "B2"; "name" := JString "Free";
                         "price" := JNumber 0 ]}).

Definition create_free_term : request :=
  Request "" (JObject {[ "weeks" := JNumber 0; "normal_rate" := JNumber 0.1;
                         "punctual_rate" := JNumber 0.05 ]}).

Definition rename_unknown : request :=
  Request "Z9" (JObject {[ "name" := JString "Tablet"; "price" := JNumber 300 ]}).

Definition rename_phone : request :=
  Request "A1" (JObject {[ "name" := JString "Tablet"; "price" := JNumber 300 ]}).

Definition about_unknown : request := Request "Z9" JUndefined.

Definition timeout : store_error := StoreError "ETIMEDOUT" "fetch failed".

End Demo.

(** ** More sample data *)

(** The status of the answer of a run. *)
Definition status_of (x : (exn + http_response) * db * list event) : option Z :=
  match answer x with
  | inr resp => Some (status resp)
  | inl _ => None
  end.

Module Samples.

Definition tablet : gmap string jsval :=
  {[ "sku" := JString "B2"; "name" := JString "Tablet";
     "description" := JString "10 inch"; "price" := JNumber 300 ]}.

Definition create_tablet : request := Request "" (JObject tablet).

Definition about_tablet : request := Request "B2" JUndefined.

Definition about_phone : request := Request "A1" JUndefined.

Definition reprice_phone : request :=
  Request "A1" (JObject {[ "name" := JString "Phone"; "price" := JNumber 900 ]}).

Definition rename_nothing : request :=
  Request "A1" (JObject {[ "price" := JNumber 900 ]}).

Definition eight_weeks : gmap string jsval :=
  {[ "weeks" := JNumber 8; "normal_rate" := JNumber 0.2; "punctual_rate" := JNumber 0.1 ]}.

Definition create_eight_weeks : request := Request "" (JObject eight_weeks).

Definition no_body : request := Request "A1" JUndefined.

Definition array_body : request := Request "A1" (JArray [JNumber 1]).

(** A shop whose phone has its price stored as text. *)
Definition text_phone : gmap string jsval :=
  {[ "sku" := JString "A1"; "name" := JString "Phone"; "price" := JString "1000" ]}.

Definition text_shop : db := Db [text_phone] [Demo.four_weeks].

End Samples.

(** ** Properties *)

(** *** Numbers *)


(** *** Property reads *)

Lemma get_prop_total v k x k' : get_prop v k = inr x → ∃ y, get_prop v k' = inr y.
Proof. destruct v; simpl; intros; try discriminate; eauto. Qed.

Lemma get_prop_object m k : get_prop (JObject m) k = inr (default JUndefined (m !! k)).
Proof. reflexivity. Qed.

Section Properties.

Variable NumberToString : float → string.
Variable StringToNumber : string → float.
Variable T : texts.

(** *** Validation *)

(** A body whose [sku], [name] or [price] is falsy ends the create handler
    at once: nothing is awaited, nothing is logged. *)
Lemma run_post_products_invalid req faults s sku name price :
  get_prop (body req) "sku" = inr sku →
  get_prop (body req) "name" = inr name →
  get_prop (body req) "price" = inr price →
  truthy sku = false ∨ truthy name = false ∨ truthy price = false →
  run (post_products T req) faults s =
    (inr (json 400 (error_body "SKU, nombre y precio son requeridos.")), s, []).
Proof.
  intros Hs Hn Hp Hf.
  destruct (get_prop_total _ _ _ "description" Hs) as [d Hd].
  unfold post_products. rewrite Hs, Hn, Hd, Hp. cbn.
  destruct Hf as [-> | [-> | ->]]; cbn;
    rewrite ?orb_true_r; reflexivity.
Qed.

Lemma run_post_terms_invalid req faults s weeks normal_rate punctual_rate :
  get_prop (body req) "weeks" = inr weeks →
  get_prop (body req) "normal_rate" = inr normal_rate →
  get_prop (body req) "punctual_rate" = inr punctual_rate →
  truthy weeks = false ∨ truthy normal_rate = false ∨ truthy punctual_rate = false →
  run (post_terms T req) faults s =
    (inr (json 400 (error_body (terms_required T))), s, []).
Proof.
  intros Hw Hn Hp Hf.
  unfold post_terms. rewrite Hw, Hn, Hp. cbn.
  destruct Hf as [-> | [-> | ->]]; cbn;
    rewrite ?orb_true_r; reflexivity.
Qed.

(** C3.  A [POST /products] request whose [sku], [name] or [price] fails
    the required-field test is answered 400 with the message naming the
    three fields; the run contains no store call and leaves the store as
    it was, since the test sits before the first awaited call. *)
Theorem post_products_rejects_before_store req faults s sku name price :
  get_prop (body req) "sku" = inr sku →
  get_prop (body req) "name" = inr name →
  get_prop (body req) "price" = inr price →
  truthy sku = false ∨ truthy name = false ∨ truthy price = false →
  let out := run (post_products T req) faults s in
  answer out = inr (json 400 (error_body "SKU, nombre y precio son requeridos."))
  ∧ store_calls (trace_of out) = []
  ∧ store_after out = s.
Proof.
  intros Hs Hn Hp Hf out. subst out.
  rewrite (run_post_products_invalid _ _ _ _ _ _ Hs Hn Hp Hf). auto.
Qed.

(** C8.  The required-field test is a truthiness test: a product body
    with [price] equal to 0, or with [sku] or [name] the empty string, is
    answered 400 although the field is there, and so is a term body with
    [weeks], [normal_rate] or [punctual_rate] equal to 0. *)
Theorem required_fields_are_tested_for_truth req faults s m :
  body req = JObject m →
  (m !! "price" = Some (JNumber 0) ∨ m !! "sku" = Some (JString "")
     ∨ m !! "name" = Some (JString "") →
   answer (run (post_products T req) faults s)
     = inr (json 400 (error_body "SKU, nombre y precio son requeridos.")))
  ∧ (m !! "weeks" = Some (JNumber 0) ∨ m !! "normal_rate" = Some (JNumber 0)
       ∨ m !! "punctual_rate" = Some (JNumber 0) →
     answer (run (post_terms T req) faults s)
       = inr (json 400 (error_body (terms_required T)))).
Proof.
  intros Hb. split; intros H.
  - erewrite run_post_products_invalid; [reflexivity | rewrite Hb; apply get_prop_object .. | ].
    destruct H as [-> | [-> | ->]]; cbn; auto.
  - erewrite run_post_terms_invalid; [reflexivity | rewrite Hb; apply get_prop_object .. | ].
    destruct H as [-> | [-> | ->]]; cbn; auto.
Qed.


(** *** Single lookups *)

Lemma exec_faulty_read_keeps_store f q s :
  is_read q = true → (exec_faulty f q s).2 = s.
Proof.
  destruct f as [e|]; [reflexivity|].
  destruct q; try discriminate; intros _; simpl; [reflexivity|].
  destruct (select_eq col v (rows_of t s)) as [|r [|r' l]]; reflexivity.
Qed.

Lemma exec_single_no_rows t col v s :
  select_eq col v (rows_of t s) = [] →
  exec (SelectSingle t col v) s = (failed PGRST116, s).
Proof. intros H. simpl. rewrite H. reflexivity. Qed.

Lemma exec_single_one_row t col v s r :
  select_eq col v (rows_of t s) = [r] →
  exec (SelectSingle t col v) s = (ok (JObject r), s).
Proof. intros H. simpl. rewrite H. reflexivity. Qed.

(** C4.  [GET /products/:sku] awaits exactly one call, the single-row
    lookup of the path's sku by equality.  A response without error is
    answered 200 with its data; an error whose code is the no-rows code
    is answered 404; every other error is answered 500 with the generic
    message.  A store with no matching row reports the no-rows code. *)
Theorem get_product_maps_no_rows_to_404 req faults s :
  let q := SelectSingle products "sku" (JString (params_sku req)) in
  let r := (exec_faulty (default None (head faults)) q s).1 in
  let out := run (get_product_by_sku T req) faults s in
  store_calls (trace_of out) = [(q, r)]
  ∧ (error r = None → answer out = inr (json 200 (data r)))
  ∧ (∀ e, error r = Some e → code e = "PGRST116" →
       answer out = inr (json 404 (error_body "Producto no encontrado.")))
  ∧ (∀ e, error r = Some e → code e ≠ "PGRST116" →
       answer out = inr (json 500 (error_body (fail_fetch_product T))))
  ∧ (default None (head faults) = None →
     select_eq "sku" (JString (params_sku req)) (products_rows s) = [] →
     error r = Some PGRST116).
Proof.
  intros q r out.
  assert (Hstore : default None (head faults) = None →
                   select_eq "sku" (JString (params_sku req)) (products_rows s) = [] →
                   error r = Some PGRST116).
  { intros Hf Hs. subst r q. rewrite Hf. unfold exec_faulty.
    rewrite (exec_single_no_rows products _ _ _ Hs). reflexivity. }
  subst out. unfold get_product_by_sku, await. cbn.
  fold q. fold r in Hstore |- *.
  destruct (exec_faulty (default None (head faults)) q s) as [r' s1] eqn:E.
  cbn in r. subst r. cbn. destruct r' as [d [e|]]; cbn in *.
  - destruct (String.eqb (code e) "PGRST116") eqn:Hc; cbn;
      repeat split; try discriminate; try assumption; intros e' [= <-] He.
    + apply String.eqb_eq in Hc. contradiction.
    + apply String.eqb_neq in Hc. contradiction.
  - repeat split; try discriminate; assumption.
Qed.


(** *** Deleting and updating by sku *)

Lemma filter_out_none col v (l : list (gmap string jsval)) :
  select_eq col v l = [] → filter (λ r, ¬ matches col v r) l = l.
Proof.
  unfold select_eq. induction l as [|r l IH]; [reflexivity|].
  rewrite !filter_cons. destruct (decide (matches col v r)) as [Hm|Hm].
  - discriminate.
  - intros Hl. rewrite decide_True by assumption. f_equal. auto.
Qed.

(** C9.  [DELETE /products/:sku] awaits exactly one call, the delete of
    the rows whose sku equals the path's.  Whenever that call reports no
    error the answer is 204 without a body; the answer is read off the
    error alone, and the store reports none whether or not a row matched.
    In particular a sku that matches no record is answered 204 and the
    store is left as it was. *)
Theorem delete_product_answers_204_blindly req faults s :
  let q := DeleteWhere products "sku" (JString (params_sku req)) in
  let r := (exec_faulty (default None (head faults)) q s).1 in
  let out := run (delete_product T req) faults s in
  store_calls (trace_of out) = [(q, r)]
  ∧ (error r = None → answer out = inr (send 204))
  ∧ (default None (head faults) = None → r = ok JNull)
  ∧ (default None (head faults) = None →
     select_eq "sku" (JString (params_sku req)) (products_rows s) = [] →
     answer out = inr (send 204) ∧ store_after out = s).
Proof.
  intros q r out. subst out r. unfold delete_product, await. cbn. fold q.
  destruct (default None (head faults)) as [e|]; cbn.
  - repeat split; discriminate.
  - repeat split; try reflexivity.
    rewrite filter_out_none by assumption. destruct s; reflexivity.
Qed.


(** The three ways a run of the update handler can go: the body cannot be
    destructured, the body fails the test, or the update is awaited. *)
Lemma get_prop_throws v k e : get_prop v k = inl e → ∀ k', get_prop v k' = inl TypeError.
Proof. destruct v; simpl; intros; try discriminate; reflexivity. Qed.

Lemma run_put_product_no_body req faults s e :
  get_prop (body req) "name" = inl e →
  run (put_product T req) faults s =
    (inr (json 500 (error_body (fail_update_product T))), s,
     [EvLog (log_update_product T) TypeError]).
Proof.
  intros H. unfold put_product.
  rewrite (get_prop_throws _ _ _ H "name"). reflexivity.
Qed.

Lemma run_put_product_invalid req faults s name price :
  get_prop (body req) "name" = inr name →
  get_prop (body req) "price" = inr price →
  truthy name = false ∨ truthy price = false →
  run (put_product T req) faults s =
    (inr (json 400 (error_body "Nombre y precio son requeridos")), s, []).
Proof.
  intros Hn Hp Hf.
  destruct (get_prop_total _ _ _ "description" Hn) as [d Hd].
  unfold put_product. rewrite Hn, Hd, Hp. cbn.
  destruct Hf as [-> | ->]; cbn; rewrite ?orb_true_r; reflexivity.
Qed.

Lemma run_put_product_valid req faults s name description price :
  get_prop (body req) "name" = inr name →
  get_prop (body req) "description" = inr description →
  get_prop (body req) "price" = inr price →
  truthy name = true → truthy price = true →
  let q := UpdateSelect products
             {[ "name" := name; "description" := description; "price" := price ]}
             "sku" (JString (params_sku req)) in
  let r := (exec_faulty (default None (head faults)) q s).1 in
  let s1 := (exec_faulty (default None (head faults)) q s).2 in
  run (put_product T req) faults s =
    match error r with
    | Some e =>
        (inr (json 500 (error_body (fail_update_product T))), s1,
         [EvStore q r; EvLog (log_update_product T) (Thrown e)])
    | None =>
        match get_index0 (data r) with
        | inl e =>
            (inr (json 500 (error_body (fail_update_product T))), s1,
             [EvStore q r; EvLog (log_update_product T) e])
        | inr updated => (inr (json 200 updated), s1, [EvStore q r])
        end
    end.
Proof.
  intros Hn Hd Hp Htn Htp q r s1.
  unfold put_product, await. rewrite Hn, Hd, Hp. cbn. rewrite Htn, Htp. cbn.
  fold q. subst r s1.
  destruct (exec_faulty (default None (head faults)) q s) as [[d [e|]] s'];
    cbn; [reflexivity|].
  destruct (get_index0 d); reflexivity.
Qed.

Lemma patch_row_no_match patch col v (l : list (gmap string jsval)) :
  select_eq col v l = [] → patch_row patch col v <$> l = l.
Proof.
  unfold select_eq. induction l as [|r l IH]; [reflexivity|].
  rewrite filter_cons. destruct (decide (matches col v r)) as [Hm|Hm].
  - discriminate.
  - intros Hl. rewrite fmap_cons, IH by assumption. f_equal.
    unfold patch_row. destruct (matches col v r); [|reflexivity].
    exfalso. apply Hm. exact I.
Qed.

(** An update leaves alone every column that is not in its payload. *)
Lemma patch_row_other_column patch col v r k :
  patch !! k = None → patch_row patch col v r !! k = r !! k.
Proof.
  intros Hk. unfold patch_row. destruct (matches col v r); [|reflexivity].
  rewrite lookup_union_r; [reflexivity|].
  unfold wire. apply map_lookup_filter_None. left. exact Hk.
Qed.

Lemma update_payload_has_no_sku (name description price : jsval) :
  ({[ "name" := name; "description" := description; "price" := price ]}
     : gmap string jsval) !! "sku" = None.
Proof. reflexivity. Qed.


Lemma sku_column_patch name description price v (l : list (gmap string jsval)) :
  sku_column
    (patch_row {[ "name" := name; "description" := description; "price" := price ]}
               "sku" v <$> l)
  = sku_column l.
Proof.
  unfold sku_column. rewrite <- list_fmap_compose.
  apply list_fmap_ext. intros i r _. cbn.
  apply patch_row_other_column, update_payload_has_no_sku.
Qed.

(** C7.  A [PUT /products/:sku] request whose sku matches no record and
    whose update call reports no error is answered 200 with an undefined
    body (the first element of an empty result), and the store is left as
    it was.  That the update was awaited at all already says that the
    body's [name] and [price] passed the required-field test. *)
Theorem put_unknown_sku_answers_200_empty req faults s :
  let out := run (put_product T req) faults s in
  select_eq "sku" (JString (params_sku req)) (products_rows s) = [] →
  (∃ q r, (q, r) ∈ store_calls (trace_of out) ∧ error r = None) →
  answer out = inr (json 200 JUndefined)
  ∧ store_after out = s
  ∧ ∃ name price,
      get_prop (body req) "name" = inr name ∧ truthy name = true
      ∧ get_prop (body req) "price" = inr price ∧ truthy price = true.
Proof.
  intros out Hnone (q & r & Hin & Hr). subst out.
  destruct (get_prop (body req) "name") as [e|name] eqn:Hn.
  { rewrite (run_put_product_no_body _ _ _ _ Hn) in Hin. cbn in Hin.
    apply elem_of_nil in Hin as []. }
  destruct (get_prop_total _ _ _ "description" Hn) as [description Hd].
  destruct (get_prop_total _ _ _ "price" Hn) as [price Hp].
  destruct (truthy name) eqn:Htn; cycle 1.
  { rewrite (run_put_product_invalid _ faults s _ _ Hn Hp) in Hin by auto.
    cbn in Hin. apply elem_of_nil in Hin as []. }
  destruct (truthy price) eqn:Htp; cycle 1.
  { rewrite (run_put_product_invalid _ faults s _ _ Hn Hp) in Hin by auto.
    cbn in Hin. apply elem_of_nil in Hin as []. }
  rewrite (run_put_product_valid _ faults s _ _ _ Hn Hd Hp Htn Htp) in Hin |- *.
  destruct (default None (head faults)) as [e|]; cbn in Hin |- *.
  { apply list_elem_of_singleton in Hin as [= -> ->]. discriminate. }
  rewrite (patch_row_no_match _ _ _ _ Hnone).
  unfold select_eq in Hnone. rewrite Hnone. cbn.
  repeat split; [destruct s; reflexivity|]. eauto 10.
Qed.

(** C10.  Every store call of [PUT /products/:sku] is an update of
    [products] whose payload has the three properties [name],
    [description] and [price] and whose filter is equality of the [sku]
    column with the path's sku; whatever the run does, the [sku] column of
    every product row, and the whole terms table, are as before. *)
Theorem put_product_never_writes_sku req faults s :
  let out := run (put_product T req) faults s in
  (∀ q r, (q, r) ∈ store_calls (trace_of out) →
     ∃ name description price,
       q = UpdateSelect products
             {[ "name" := name; "description" := description; "price" := price ]}
             "sku" (JString (params_sku req)))
  ∧ sku_column (products_rows (store_after out)) = sku_column (products_rows s)
  ∧ terms_rows (store_after out) = terms_rows s.
Proof.
  intros out. subst out.
  destruct (get_prop (body req) "name") as [e|name] eqn:Hn.
  { rewrite (run_put_product_no_body _ _ _ _ Hn). cbn.
    repeat split. intros q r Hin. apply elem_of_nil in Hin as []. }
  destruct (get_prop_total _ _ _ "description" Hn) as [description Hd].
  destruct (get_prop_total _ _ _ "price" Hn) as [price Hp].
  destruct (truthy name) eqn:Htn; cycle 1.
  { rewrite (run_put_product_invalid _ faults s _ _ Hn Hp) by auto. cbn.
    repeat split. intros q r Hin. apply elem_of_nil in Hin as []. }
  destruct (truthy price) eqn:Htp; cycle 1.
  { rewrite (run_put_product_invalid _ faults s _ _ Hn Hp) by auto. cbn.
    repeat split. intros q r Hin. apply elem_of_nil in Hin as []. }
  rewrite (run_put_product_valid _ faults s _ _ _ Hn Hd Hp Htn Htp).
  set (q := UpdateSelect products _ _ _).
  assert (Hstore :
    sku_column (products_rows (exec_faulty (default None (head faults)) q s).2)
      = sku_column (products_rows s)
    ∧ terms_rows (exec_faulty (default None (head faults)) q s).2 = terms_rows s).
  { destruct (default None (head faults)); cbn; [auto|].
    split; [apply sku_column_patch | reflexivity]. }
  destruct (error _); [| destruct (get_index0 _)]; cbn;
    (split; [| exact Hstore]);
    intros q' r' Hin; apply list_elem_of_singleton in Hin as [= -> ->];
    subst q; eauto.
Qed.


(** *** The quote *)

Abbreviation post_quote' := (post_quote NumberToString StringToNumber T).
Notation "a * b" := (js_mul NumberToString StringToNumber a b) : js_scope.
Notation "a + b" := (js_add NumberToString StringToNumber a b) : js_scope.
Notation "a / b" := (js_div NumberToString StringToNumber a b) : js_scope.

Lemma exec_faulty_single_store f t col v s :
  (exec_faulty f (SelectSingle t col v) s).2 = s.
Proof. apply exec_faulty_read_keeps_store. reflexivity. Qed.

Lemma run_post_quote_no_body req faults s e :
  get_prop (body req) "sku" = inl e →
  run (post_quote' req) faults s =
    (inr (json 500 (error_body (fail_quote T))), s, [EvLog (log_quote T) TypeError]).
Proof.
  intros H. unfold post_quote.
  rewrite (get_prop_throws _ _ _ H "sku"). reflexivity.
Qed.

(** A run of the quote handler on a body that can be destructured, call
    by call. *)
Lemma run_post_quote_body req faults s sku weeks :
  get_prop (body req) "sku" = inr sku →
  get_prop (body req) "weeks" = inr weeks →
  let q1 := SelectSingle products "sku" sku in
  let r1 := (exec_faulty (default None (head faults)) q1 s).1 in
  let q2 := SelectSingle terms "weeks" weeks in
  let r2 := (exec_faulty (default None (head (tail faults))) q2 s).1 in
  let failure := inr (json 500 (error_body (fail_quote T))) in
  run (post_quote' req) faults s =
    match error r1 with
    | Some e => (failure, s, [EvStore q1 r1; EvLog (log_quote T) (Thrown e)])
    | None =>
      match error r2 with
      | Some e =>
          (failure, s, [EvStore q1 r1; EvStore q2 r2; EvLog (log_quote T) (Thrown e)])
      | None =>
        match get_prop (data r1) "price", get_prop (data r2) "normal_rate",
              get_prop (data r2) "punctual_rate" with
        | inr price, inr normal_rate, inr punctual_rate =>
            (inr (json 200 (JObject
               {[ "normalPayment" := ((price * normal_rate) + price) / weeks;
                  "punctualPayment" := ((price * punctual_rate) + price) / weeks ]}%js)),
             s, [EvStore q1 r1; EvStore q2 r2])
        | inl e, _, _ | inr _, inl e, _ | inr _, inr _, inl e =>
            (failure, s, [EvStore q1 r1; EvStore q2 r2; EvLog (log_quote T) e])
        end
      end
    end.
Proof.
  intros Hs Hw q1 r1 q2 r2 failure.
  unfold post_quote, await. rewrite Hs, Hw. cbn. fold q1.
  pose proof (exec_faulty_single_store (default None (head faults)) products "sku" sku s) as E1.
  fold q1 in E1. subst r1.
  destruct (exec_faulty (default None (head faults)) q1 s) as [[d1 [e1|]] s1];
    cbn in E1 |- *; subst s1; [reflexivity|].
  fold q2.
  pose proof (exec_faulty_single_store (default None (head (tail faults))) terms "weeks" weeks s) as E2.
  fold q2 in E2. subst r2.
  destruct (exec_faulty (default None (head (tail faults))) q2 s) as [[d2 [e2|]] s2];
    cbn in E2 |- *; subst s2; [reflexivity|].
  destruct (get_prop d1 "price"); cbn; [reflexivity|].
  destruct (get_prop d2 "normal_rate"); cbn; [reflexivity|].
  destruct (get_prop d2 "punctual_rate"); reflexivity.
Qed.


Lemma fault_free_head faults : fault_free faults → default None (head faults) = None.
Proof. destruct 1; [reflexivity | assumption]. Qed.

Lemma fault_free_tail faults : fault_free faults → fault_free (tail faults).
Proof. destruct 1; [constructor | assumption]. Qed.

Lemma exec_faulty_single_found f t col v s r :
  f = None → select_eq col v (rows_of t s) = [r] →
  (exec_faulty f (SelectSingle t col v) s).1 = ok (JObject r).
Proof. intros -> H. unfold exec_faulty. rewrite (exec_single_one_row _ _ _ _ _ H). reflexivity. Qed.

Lemma exec_faulty_single_missing f t col v s :
  select_eq col v (rows_of t s) = [] →
  ∃ e, (exec_faulty f (SelectSingle t col v) s).1 = failed e.
Proof.
  intros H. destruct f as [e|]; [exists e; reflexivity|].
  exists PGRST116. unfold exec_faulty. rewrite (exec_single_no_rows _ _ _ _ H). reflexivity.
Qed.

(** C1.  When the store answers and holds the product of the given sku
    and the term of the given weeks (one row each, as [sku] and [weeks]
    are keys), with numeric [price], rates and [weeks], the quote is
    answered 200 with
    [normalPayment = (price * normal_rate + price) / weeks] and
    [punctualPayment = (price * punctual_rate + price) / weeks] in
    binary64 arithmetic; for price 1000, weeks 4 and rates 0.1 and 0.05
    the payments are 275 and 262.5. *)
Theorem quote_formula req faults s sku w p t price normal_rate punctual_rate :
  fault_free faults →
  get_prop (body req) "sku" = inr sku →
  get_prop (body req) "weeks" = inr (JNumber w) →
  select_eq "sku" sku (products_rows s) = [p] →
  select_eq "weeks" (JNumber w) (terms_rows s) = [t] →
  p !! "price" = Some (JNumber price) →
  t !! "normal_rate" = Some (JNumber normal_rate) →
  t !! "punctual_rate" = Some (JNumber punctual_rate) →
  let out := run (post_quote' req) faults s in
  answer out = inr (json 200 (JObject
    {[ "normalPayment" := JNumber ((price * normal_rate + price) / w)%float;
       "punctualPayment" := JNumber ((price * punctual_rate + price) / w)%float ]}))
  ∧ (price = 1000%float → w = 4%float →
     normal_rate = 0.1%float → punctual_rate = 0.05%float →
     answer out = inr (json 200 (JObject
       {[ "normalPayment" := JNumber 275; "punctualPayment" := JNumber 262.5 ]}))).
Proof.
  intros Hff Hs Hw Hp Ht Hprice Hnr Hpr out.
  assert (Hout : answer out = inr (json 200 (JObject
    {[ "normalPayment" := JNumber ((price * normal_rate + price) / w)%float;
       "punctualPayment" := JNumber ((price * punctual_rate + price) / w)%float ]}))).
  { subst out. rewrite (run_post_quote_body _ _ _ _ _ Hs Hw).
    rewrite (exec_faulty_single_found _ products _ _ _ _ (fault_free_head _ Hff) Hp).
    rewrite (exec_faulty_single_found _ terms _ _ _ _
               (fault_free_head _ (fault_free_tail _ Hff)) Ht).
    cbn. rewrite Hprice, Hnr, Hpr. reflexivity. }
  split; [exact Hout|].
  intros -> -> -> ->. rewrite Hout. reflexivity.
Qed.

(** C2.  When no product matches the given sku, or no term matches the
    given weeks, the quote is answered 500 with the generic error object
    (not 404, and no payments), whatever else the store does; the store is
    left as it was. *)
Theorem quote_not_found_is_500 req faults s sku weeks :
  get_prop (body req) "sku" = inr sku →
  get_prop (body req) "weeks" = inr weeks →
  select_eq "sku" sku (products_rows s) = []
    ∨ select_eq "weeks" weeks (terms_rows s) = [] →
  let out := run (post_quote' req) faults s in
  answer out = inr (json 500 (error_body (fail_quote T)))
  ∧ store_after out = s.
Proof.
  intros Hs Hw Hnone out. subst out.
  rewrite (run_post_quote_body _ _ _ _ _ Hs Hw).
  destruct Hnone as [Hp | Ht].
  - destruct (exec_faulty_single_missing (default None (head faults)) products _ _ _ Hp)
      as [e ->]. cbn. auto.
  - destruct (exec_faulty_single_missing (default None (head (tail faults))) terms _ _ _ Ht)
      as [e ->]. cbn.
    destruct (error _); cbn; auto.
Qed.


(** A single-row lookup that comes back without error was not failed
    from outside and found exactly one row, which is its data. *)
Lemma exec_faulty_single_ok f t col v s :
  error (exec_faulty f (SelectSingle t col v) s).1 = None →
  ∃ r, select_eq col v (rows_of t s) = [r]
       ∧ (exec_faulty f (SelectSingle t col v) s).1 = ok (JObject r).
Proof.
  destruct f as [e|]; [discriminate|].
  unfold exec_faulty, exec.
  destruct (select_eq col v (rows_of t s)) as [|r [|r' l]]; cbn; try discriminate.
  eauto.
Qed.

(** C5.  The quote handler never changes the store and awaits reads
    only.  A body that cannot be destructured is answered 500 before any
    call.  Every other request awaits the product lookup by the body's
    [sku] first; when that lookup reports an error it is the only call
    and the answer is the 500 error object; when it reports none, the
    term lookup by the body's [weeks] is awaited second, and those two
    are all the calls.  An error of the term lookup is answered with the
    500 error object; with no error in either lookup the answer is the
    200 with both payments computed from the two rows found.  There is
    no other answer, so no partial result. *)
Theorem quote_reads_in_order_and_writes_nothing req faults s :
  let out := run (post_quote' req) faults s in
  let failure := inr (json 500 (error_body (fail_quote T))) in
  store_after out = s
  ∧ (∀ q r, (q, r) ∈ store_calls (trace_of out) → is_read q = true)
  ∧ ((∃ e, get_prop (body req) "sku" = inl e) →
     store_calls (trace_of out) = [] ∧ answer out = failure)
  ∧ (∀ sku weeks,
       get_prop (body req) "sku" = inr sku →
       get_prop (body req) "weeks" = inr weeks →
       let q1 := SelectSingle products "sku" sku in
       let r1 := (exec_faulty (default None (head faults)) q1 s).1 in
       let q2 := SelectSingle terms "weeks" weeks in
       let r2 := (exec_faulty (default None (head (tail faults))) q2 s).1 in
       (∀ e, error r1 = Some e →
          store_calls (trace_of out) = [(q1, r1)] ∧ answer out = failure)
       ∧ (error r1 = None →
          store_calls (trace_of out) = [(q1, r1); (q2, r2)]
          ∧ (∀ e, error r2 = Some e → answer out = failure)
          ∧ (error r2 = None →
             ∃ p t : gmap string jsval,
               select_eq "sku" sku (products_rows s) = [p]
               ∧ select_eq "weeks" weeks (terms_rows s) = [t]
               ∧ r1 = ok (JObject p) ∧ r2 = ok (JObject t)
               ∧ let price := default JUndefined (p !! "price") in
                 let normal_rate := default JUndefined (t !! "normal_rate") in
                 let punctual_rate := default JUndefined (t !! "punctual_rate") in
                 answer out = inr (json 200 (JObject
                   {[ "normalPayment" := ((price * normal_rate) + price) / weeks;
                      "punctualPayment" := ((price * punctual_rate) + price) / weeks ]}%js))))).
Proof.
  intros out failure. subst out failure.
  assert (Hcase : (∃ e, get_prop (body req) "sku" = inl e)
                  ∨ (∃ sku, get_prop (body req) "sku" = inr sku))
    by (destruct (get_prop (body req) "sku"); eauto).
  destruct Hcase as [[e Hs] | [sku Hs]].
  { rewrite (run_post_quote_no_body _ _ _ _ Hs). cbn.
    split; [reflexivity|]. split.
    { intros q r Hin. apply elem_of_nil in Hin as []. }
    split; [auto|]. intros sku weeks Hs'. congruence. }
  destruct (get_prop_total _ _ _ "weeks" Hs) as [weeks Hw].
  rewrite (run_post_quote_body _ _ _ _ _ Hs Hw).
  set (q1 := SelectSingle products "sku" sku).
  set (q2 := SelectSingle terms "weeks" weeks).
  set (r1 := (exec_faulty (default None (head faults)) q1 s).1).
  set (r2 := (exec_faulty (default None (head (tail faults))) q2 s).1).
  assert (Hreads : ∀ q r, (q, r) ∈ [(q1, r1); (q2, r2)] → is_read q = true).
  { intros q r Hin. apply elem_of_cons in Hin as [[= -> _] | Hin]; [reflexivity|].
    apply list_elem_of_singleton in Hin as [= -> _]. reflexivity. }
  assert (Hnot : (∃ e, get_prop (body req) "sku" = inl e) → False).
  { intros [e He]. congruence. }
  destruct (error r1) as [e1|] eqn:E1.
  { cbn. split; [reflexivity|]. split.
    { intros q r Hin. apply list_elem_of_singleton in Hin as [= -> _]. reflexivity. }
    split; [intros H; destruct (Hnot H)|].
    intros sku' weeks' Hs' Hw'.
    assert (sku' = sku) as -> by congruence.
    assert (weeks' = weeks) as -> by congruence.
    fold q1 r1. rewrite E1. split; [auto|]. discriminate. }
  destruct (exec_faulty_single_ok _ products _ _ _ E1) as (p & Hp & Hr1).
  fold q1 r1 in Hr1.
  destruct (error r2) as [e2|] eqn:E2.
  { cbn. split; [reflexivity|]. split; [exact Hreads|].
    split; [intros H; destruct (Hnot H)|].
    intros sku' weeks' Hs' Hw'.
    assert (sku' = sku) as -> by congruence.
    assert (weeks' = weeks) as -> by congruence.
    fold q1 r1 q2 r2. rewrite E1, E2. split; [discriminate|].
    intros _. split; [reflexivity|]. split; [auto|]. discriminate. }
  destruct (exec_faulty_single_ok _ terms _ _ _ E2) as (t & Ht & Hr2).
  fold q2 r2 in Hr2.
  assert (Hanswer : get_prop (data r1) "price" = inr (default JUndefined (p !! "price"))
                    ∧ get_prop (data r2) "normal_rate"
                        = inr (default JUndefined (t !! "normal_rate"))
                    ∧ get_prop (data r2) "punctual_rate"
                        = inr (default JUndefined (t !! "punctual_rate"))).
  { rewrite Hr1, Hr2. repeat split; reflexivity. }
  destruct Hanswer as (-> & -> & ->).
  cbn. split; [reflexivity|]. split; [exact Hreads|].
  split; [intros H; destruct (Hnot H)|].
  intros sku' weeks' Hs' Hw'.
  assert (sku' = sku) as -> by congruence.
  assert (weeks' = weeks) as -> by congruence.
  fold q1 r1 q2 r2. rewrite E1, E2. split; [discriminate|].
  intros _. split; [reflexivity|]. split; [discriminate|].
  intros _. exists p, t. auto 10.
Qed.



(** The row a single-row lookup returns matches the filter. *)
Lemma select_eq_single_matches col v (l : list (gmap string jsval)) r :
  select_eq col v l = [r] → matches col v r = true.
Proof.
  intros H. assert (Hin : r ∈ select_eq col v l) by (rewrite H; left).
  apply list_elem_of_filter in Hin as [Hm _].
  destruct (matches col v r); [reflexivity | destruct Hm].
Qed.




(** *** Trees and runs *)

(** A run of [try { p } catch { log; 500 }] is the run of [p], with a
    thrown error turned into the logged 500. *)
Lemma run_try_catch_500 (p : prog http_response) label msg faults s :
  run (try_catch p (catch_500 label msg)) faults s =
    match run p faults s with
    | (inr a, s', tr) => (inr a, s', tr)
    | (inl e, s', tr) => (inr (json 500 (error_body msg)), s', (tr ++ [EvLog label e])%list)
    end.
Proof.
  revert faults s. induction p as [a|e|q k IH|l e k IH]; intros faults s; cbn.
  - reflexivity.
  - reflexivity.
  - destruct (exec_faulty (default None (head faults)) q s) as [r s1].
    rewrite IH. destruct (run (k r) (tail faults) s1) as [[[e|a] s2] tr]; reflexivity.
  - rewrite IH. destruct (run k faults s) as [[[e'|a] s2] tr]; reflexivity.
Qed.

Lemma every_ret_run {A} (P : A → Prop) (p : prog A) faults s a :
  every_ret P p → answer (run p faults s) = inr a → P a.
Proof.
  revert faults s. induction p as [a'|e|q k IH|l e k IH]; intros faults s Hp; cbn in *.
  - intros [= <-]. exact Hp.
  - discriminate.
  - destruct (exec_faulty (default None (head faults)) q s) as [r s1].
    specialize (IH r (tail faults) s1 (Hp r)).
    destruct (run (k r) (tail faults) s1) as [[x s2] tr]. exact IH.
  - specialize (IH faults s Hp). destruct (run k faults s) as [[x s2] tr]. exact IH.
Qed.

Lemma silent_run {A} (p : prog A) faults s :
  silent p → logs (trace_of (run p faults s)) = [].
Proof.
  revert faults s. induction p as [a'|e|q k IH|l e k IH]; intros faults s Hp; cbn in *.
  - reflexivity.
  - reflexivity.
  - destruct (exec_faulty (default None (head faults)) q s) as [r s1].
    specialize (IH r (tail faults) s1 (Hp r)).
    destruct (run (k r) (tail faults) s1) as [[x s2] tr]. exact IH.
  - destruct Hp.
Qed.

Lemma awaits_at_most_run {A} n (p : prog A) faults s :
  awaits_at_most n p → (length (store_calls (trace_of (run p faults s))) ≤ n)%nat.
Proof.
  revert n faults s.
  induction p as [a'|e|q k IH|l e k IH]; intros n faults s Hp; cbn in *.
  - lia.
  - lia.
  - destruct n as [|m]; [destruct Hp|].
    destruct (exec_faulty (default None (head faults)) q s) as [r s1].
    specialize (IH r m (tail faults) s1 (Hp r)).
    destruct (run (k r) (tail faults) s1) as [[x s2] tr]. cbn in *. lia.
  - specialize (IH n faults s Hp). destruct (run k faults s) as [[x s2] tr]. exact IH.
Qed.

Lemma every_await_run {A} (Q : query → Prop) (p : prog A) faults s q r :
  every_await Q p → (q, r) ∈ store_calls (trace_of (run p faults s)) → Q q.
Proof.
  revert faults s. induction p as [a'|e|q' k IH|l e k IH]; intros faults s Hp; cbn in *.
  - intros Hin. apply elem_of_nil in Hin as [].
  - intros Hin. apply elem_of_nil in Hin as [].
  - destruct Hp as [Hq Hk].
    destruct (exec_faulty (default None (head faults)) q' s) as [r' s1].
    specialize (IH r' (tail faults) s1 (Hk r')).
    destruct (run (k r') (tail faults) s1) as [[x s2] tr]. cbn in *.
    intros Hin. apply elem_of_cons in Hin as [[= -> ->] | Hin]; auto.
  - specialize (IH faults s Hp). destruct (run k faults s) as [[x s2] tr]. exact IH.
Qed.

(** A call leaves alone every table it is not scoped to, and a read
    leaves alone every table. *)
Lemma exec_faulty_frame f q s t :
  is_read q = true ∨ query_table q ≠ t →
  rows_of t (exec_faulty f q s).2 = rows_of t s.
Proof.
  intros H. destruct f as [e|]; [reflexivity|].
  destruct q as [t'|t' col v|t' rows|t' patch col v|t' col v]; cbn in *.
  - reflexivity.
  - destruct (select_eq col v (rows_of t' s)) as [|r [|r' l]]; reflexivity.
  - destruct H as [H|H]; [discriminate|]. destruct t', t; try reflexivity; contradiction.
  - destruct H as [H|H]; [discriminate|]. destruct t', t; try reflexivity; contradiction.
  - destruct H as [H|H]; [discriminate|]. destruct t', t; try reflexivity; contradiction.
Qed.

Lemma frame_run {A} t (p : prog A) faults s :
  every_await (λ q, is_read q = true ∨ query_table q ≠ t) p →
  rows_of t (store_after (run p faults s)) = rows_of t s.
Proof.
  revert faults s. induction p as [a'|e|q k IH|l e k IH]; intros faults s Hp; cbn in *.
  - reflexivity.
  - reflexivity.
  - destruct Hp as [Hq Hk].
    pose proof (exec_faulty_frame (default None (head faults)) q s t Hq) as Hf.
    destruct (exec_faulty (default None (head faults)) q s) as [r s1].
    specialize (IH r (tail faults) s1 (Hk r)).
    destruct (run (k r) (tail faults) s1) as [[x s2] tr]. cbn in *. congruence.
  - specialize (IH faults s Hp). destruct (run k faults s) as [[x s2] tr]. exact IH.
Qed.


(** *** The shape of the handlers *)

Abbreviation handler' := (handler NumberToString StringToNumber T).

(** One step through a handler body: split the goal, take the response
    of an awaited call, and branch where the body branches. *)
Ltac walk_step :=
  match goal with
  | |- _ ∧ _ => split
  | |- ∀ _, _ => intro
  | |- context [lift ?x] => destruct x
  | |- context [throw_if_error ?r] => unfold throw_if_error; destruct (error r)
  | |- context [match error ?r with _ => _ end] => destruct (error r)
  | |- context [if ?b then _ else _] => destruct b
  end.

Ltac walk := repeat (cbn; walk_step); cbn.

(** Every handler is a body inside the same [catch]: log under the
    handler's label, answer 500 with the handler's message.  The body
    itself returns only the handler's other statuses, never writes to the
    console, awaits no more than the handler's round trips, and its calls
    are reads only, or calls on the one table the handler writes. *)
Lemma handler_tree rt req :
  ∃ p, handler' rt req = try_catch p (catch_500 (log_text T rt) (fail_text T rt))
    ∧ every_ret (λ a, status a ∈ statuses rt ∧ status a ≠ 500%Z) p
    ∧ silent p
    ∧ awaits_at_most (round_trips rt) p
    ∧ every_await (λ q, match written_table rt with
                        | None => is_read q = true
                        | Some t => query_table q = t
                        end) p.
Proof.
  destruct rt; eexists; (split; [reflexivity|]);
    (split; [|split; [|split]]); walk;
    first [exact I | reflexivity | discriminate | set_solver].
Qed.


Lemma every_await_impl {A} (Q Q' : query → Prop) (p : prog A) :
  (∀ q, Q q → Q' q) → every_await Q p → every_await Q' p.
Proof.
  intros HQ. induction p as [a|e|q k IH|l e k IH]; cbn.
  - intros _. exact I.
  - intros _. exact I.
  - intros [Hq Hk]. split; [apply HQ, Hq|]. intros r. apply IH, Hk.
  - exact IH.
Qed.

Lemma store_calls_snoc_log tr l e :
  store_calls (tr ++ [EvLog l e]) = store_calls tr.
Proof. unfold store_calls. rewrite omap_app. cbn. apply app_nil_r. Qed.

Lemma logs_snoc_log tr l e : logs (tr ++ [EvLog l e]) = (logs tr ++ [(l, e)])%list.
Proof. unfold logs. rewrite omap_app. reflexivity. Qed.

(** *** All handlers *)

(** X1.  No handler lets an exception escape: whatever the request, the
    store and the failures injected, the run ends in an answer, and the
    status of that answer is one of the literals of the handler. *)
Theorem every_handler_answers_within_its_statuses rt req faults s :
  ∃ resp, answer (run (handler' rt req) faults s) = inr resp
          ∧ status resp ∈ statuses rt.
Proof.
  destruct (handler_tree rt req) as (p & -> & Hret & _).
  rewrite run_try_catch_500.
  destruct (run p faults s) as [[[e|a] s'] tr] eqn:E.
  - eexists. split; [reflexivity|]. destruct rt; cbn; set_solver.
  - exists a. split; [reflexivity|].
    apply (every_ret_run _ p faults s a Hret). rewrite E. reflexivity.
Qed.

(** X2.  A handler answers 500 exactly when its [catch] ran: the answer
    is then the handler's generic error object, and the console holds one
    line, written last, with the handler's label and the error thrown.
    Every other answer leaves the console empty. *)
Theorem a_500_is_logged_once_and_nothing_else_is rt req faults s :
  let out := run (handler' rt req) faults s in
  (∃ resp, answer out = inr resp ∧ status resp ≠ 500%Z ∧ logs (trace_of out) = [])
  ∨ (∃ e, answer out = inr (json 500 (error_body (fail_text T rt)))
          ∧ logs (trace_of out) = [(log_text T rt, e)]
          ∧ last (trace_of out) = Some (EvLog (log_text T rt) e)).
Proof.
  intros out. subst out.
  destruct (handler_tree rt req) as (p & -> & Hret & Hsilent & _).
  rewrite run_try_catch_500.
  pose proof (silent_run p faults s Hsilent) as Hlogs.
  destruct (run p faults s) as [[[e|a] s'] tr] eqn:E;
    unfold answer, trace_of in *; cbn [fst snd] in *.
  - right. exists e. split; [reflexivity|].
    rewrite logs_snoc_log, Hlogs, last_snoc. auto.
  - left. exists a. repeat split; [|exact Hlogs].
    apply (every_ret_run _ p faults s a Hret). rewrite E. reflexivity.
Qed.

(** X3.  A handler changes no table but the one it writes: the product
    handlers leave the terms alone, the term handler leaves the products
    alone, and the four handlers that only look things up await reads
    only and leave the whole store as it was. *)
Theorem handlers_write_only_their_table rt req faults s :
  let out := run (handler' rt req) faults s in
  (∀ t, written_table rt ≠ Some t → rows_of t (store_after out) = rows_of t s)
  ∧ (written_table rt = None →
     store_after out = s
     ∧ ∀ q r, (q, r) ∈ store_calls (trace_of out) → is_read q = true).
Proof.
  intros out. subst out.
  destruct (handler_tree rt req) as (p & -> & _ & _ & _ & Hq).
  rewrite run_try_catch_500.
  assert (Hframe : ∀ t, written_table rt ≠ Some t →
                        rows_of t (store_after (run p faults s)) = rows_of t s).
  { intros t Ht. apply frame_run. revert Hq. apply every_await_impl.
    intros q. destruct (written_table rt) as [t'|]; [|auto].
    intros ->. right. congruence. }
  assert (Hreads : written_table rt = None →
                   ∀ q r, (q, r) ∈ store_calls (trace_of (run p faults s)) → is_read q = true).
  { intros Hw q r. rewrite Hw in Hq. apply (every_await_run _ p faults s q r Hq). }
  destruct (run p faults s) as [[[e|a] s'] tr]; cbn in *.
  - split; [exact Hframe|]. intros Hw. split.
    + pose proof (Hframe products) as Hp. pose proof (Hframe terms) as Ht.
      rewrite Hw in Hp, Ht. destruct s', s. cbn in *. f_equal; auto.
    + intros q r. rewrite store_calls_snoc_log. exact (Hreads Hw q r).
  - split; [exact Hframe|]. intros Hw. split; [|exact (Hreads Hw)].
    pose proof (Hframe products) as Hp. pose proof (Hframe terms) as Ht.
    rewrite Hw in Hp, Ht. destruct s', s. cbn in *. f_equal; auto.
Qed.

(** X4.  A request costs at most one store call, and a quote at most
    two. *)
Theorem handlers_await_at_most_their_round_trips rt req faults s :
  (length (store_calls (trace_of (run (handler' rt req) faults s))) ≤ round_trips rt)%nat.
Proof.
  destruct (handler_tree rt req) as (p & -> & _ & _ & Hn & _).
  rewrite run_try_catch_500.
  pose proof (awaits_at_most_run _ p faults s Hn) as Hlen.
  destruct (run p faults s) as [[[e|a] s'] tr]; cbn in *; [|exact Hlen].
  rewrite store_calls_snoc_log. exact Hlen.
Qed.


(** *** Listing *)

Lemma run_get_products faults s :
  run (get_products T) faults s =
    match default None (head faults) with
    | Some e =>
        (inr (json 500 (error_body (fail_fetch_products T))), s,
         [EvStore (SelectAll products) (failed e);
          EvLog (log_fetch_products T) (Thrown e)])
    | None =>
        (inr (json 200 (JArray (JObject <$> products_rows s))), s,
         [EvStore (SelectAll products) (ok (JArray (JObject <$> products_rows s)))])
    end.
Proof.
  unfold get_products, await. cbn.
  destruct (default None (head faults)); reflexivity.
Qed.

Lemma run_get_terms faults s :
  run (get_terms T) faults s =
    match default None (head faults) with
    | Some e =>
        (inr (json 500 (error_body (fail_fetch_terms T))), s,
         [EvStore (SelectAll terms) (failed e);
          EvLog (log_fetch_terms T) (Thrown e)])
    | None =>
        (inr (json 200 (JArray (JObject <$> terms_rows s))), s,
         [EvStore (SelectAll terms) (ok (JArray (JObject <$> terms_rows s)))])
    end.
Proof.
  unfold get_terms, await. cbn.
  destruct (default None (head faults)); reflexivity.
Qed.

(** X5.  The two list endpoints await one unfiltered select.  When it
    reports no error the answer is 200 with every row of the table, in
    the table's order, none left out; when it reports an error the answer
    is 500 and carries no rows. *)
Theorem list_endpoints_return_every_row faults s :
  let out_p := run (get_products T) faults s in
  let out_t := run (get_terms T) faults s in
  (∃ r, store_calls (trace_of out_p) = [(SelectAll products, r)])
  ∧ (∃ r, store_calls (trace_of out_t) = [(SelectAll terms, r)])
  ∧ (default None (head faults) = None →
     answer out_p = inr (json 200 (JArray (JObject <$> products_rows s)))
     ∧ answer out_t = inr (json 200 (JArray (JObject <$> terms_rows s))))
  ∧ (∀ e, default None (head faults) = Some e →
     answer out_p = inr (json 500 (error_body (fail_fetch_products T)))
     ∧ answer out_t = inr (json 500 (error_body (fail_fetch_terms T)))).
Proof.
  intros out_p out_t. subst out_p out_t.
  rewrite run_get_products, run_get_terms.
  destruct (default None (head faults)) as [e|]; cbn.
  - split; [eauto|]. split; [eauto|]. split; [discriminate|].
    intros e' _. split; reflexivity.
  - split; [eauto|]. split; [eauto|]. split; [intros _; split; reflexivity|].
    intros e'. discriminate.
Qed.

(** *** Creating *)

Lemma wire_lookup (o : gmap string jsval) k v :
  o !! k = Some v → is_undefined v = false → wire o !! k = Some v.
Proof. intros Hk Hv. unfold wire. apply map_lookup_filter_Some. auto. Qed.

Lemma wire_lookup_undefined (o : gmap string jsval) k :
  o !! k = Some JUndefined → wire o !! k = None.
Proof.
  intros Hk. unfold wire. apply map_lookup_filter_None. right.
  intros v Hv. rewrite Hk in Hv. injection Hv as <-. cbn. discriminate.
Qed.

Lemma truthy_defined v : truthy v = true → is_undefined v = false.
Proof. destruct v; cbn; congruence. Qed.

Lemma run_post_products_valid req faults s sku name description price :
  get_prop (body req) "sku" = inr sku →
  get_prop (body req) "name" = inr name →
  get_prop (body req) "description" = inr description →
  get_prop (body req) "price" = inr price →
  truthy sku = true → truthy name = true → truthy price = true →
  let o : gmap string jsval :=
    {[ "sku" := sku; "name" := name; "description" := description; "price" := price ]} in
  let q := InsertSelect products [o] in
  run (post_products T req) faults s =
    match default None (head faults) with
    | Some e =>
        (inr (json 500 (error_body (fail_create_product T))), s,
         [EvStore q (failed e); EvLog (log_create_product T) (Thrown e)])
    | None =>
        (inr (json 201 (JObject (wire o))),
         Db (products_rows s ++ [wire o]) (terms_rows s),
         [EvStore q (ok (JArray [JObject (wire o)]))])
    end.
Proof.
  intros Hs Hn Hd Hp Hts Htn Htp o q.
  unfold post_products, await. rewrite Hs, Hn, Hd, Hp. cbn. rewrite Hts, Htn, Htp. cbn.
  destruct (default None (head faults)); reflexivity.
Qed.

Lemma run_post_terms_valid req faults s weeks normal_rate punctual_rate :
  get_prop (body req) "weeks" = inr weeks →
  get_prop (body req) "normal_rate" = inr normal_rate →
  get_prop (body req) "punctual_rate" = inr punctual_rate →
  truthy weeks = true → truthy normal_rate = true → truthy punctual_rate = true →
  let o : gmap string jsval :=
    {[ "weeks" := weeks; "normal_rate" := normal_rate; "punctual_rate" := punctual_rate ]} in
  let q := InsertSelect terms [o] in
  run (post_terms T req) faults s =
    match default None (head faults) with
    | Some e =>
        (inr (json 500 (error_body (fail_create_term T))), s,
         [EvStore q (failed e); EvLog (log_create_term T) (Thrown e)])
    | None =>
        (inr (json 201 (JObject (wire o))),
         Db (products_rows s) (terms_rows s ++ [wire o]),
         [EvStore q (ok (JArray [JObject (wire o)]))])
    end.
Proof.
  intros Hw Hn Hp Htw Htn Htp o q.
  unfold post_terms, await. rewrite Hw, Hn, Hp. cbn. rewrite Htw, Htn, Htp. cbn.
  destruct (default None (head faults)); reflexivity.
Qed.


(** X6.  A [POST /products] request whose [sku], [name] and [price] are
    truthy, on a store that reports no error, is answered 201 with the
    created row; the row is appended to the products and nothing else
    changes.  The row holds the submitted [sku], [name] and [price] as
    they came, and a [description] exactly when one was given. *)
Theorem post_products_creates_the_row req faults s sku name description price :
  default None (head faults) = None →
  get_prop (body req) "sku" = inr sku →
  get_prop (body req) "name" = inr name →
  get_prop (body req) "description" = inr description →
  get_prop (body req) "price" = inr price →
  truthy sku = true → truthy name = true → truthy price = true →
  let out := run (post_products T req) faults s in
  ∃ row : gmap string jsval,
    answer out = inr (json 201 (JObject row))
    ∧ store_after out = Db (products_rows s ++ [row]) (terms_rows s)
    ∧ row !! "sku" = Some sku ∧ row !! "name" = Some name ∧ row !! "price" = Some price
    ∧ row !! "description" = (if is_undefined description then None else Some description)
    ∧ dom row ⊆ {[ "sku"; "name"; "description"; "price" ]}.
Proof.
  intros Hf Hs Hn Hd Hp Hts Htn Htp out. subst out.
  rewrite (run_post_products_valid _ faults s _ _ _ _ Hs Hn Hd Hp Hts Htn Htp), Hf.
  eexists. split; [reflexivity|]. split; [reflexivity|].
  split; [apply wire_lookup; [reflexivity | apply truthy_defined, Hts]|].
  split; [apply wire_lookup; [reflexivity | apply truthy_defined, Htn]|].
  split; [apply wire_lookup; [reflexivity | apply truthy_defined, Htp]|].
  split.
  - destruct (is_undefined description) eqn:Hu.
    + destruct description; try discriminate. apply wire_lookup_undefined. reflexivity.
    + apply wire_lookup; [reflexivity | exact Hu].
  - unfold wire. etrans; [apply dom_filter_subseteq|].
    rewrite !dom_insert_L, ?dom_singleton_L, ?dom_empty_L. set_solver.
Qed.

(** X7.  A [POST /terms] request whose [weeks], [normal_rate] and
    [punctual_rate] are truthy, on a store that reports no error, is
    answered 201 with the created term, which holds the three fields as
    they came; the term is appended to the terms and the products are
    left alone. *)
Theorem post_terms_creates_the_term req faults s weeks normal_rate punctual_rate :
  default None (head faults) = None →
  get_prop (body req) "weeks" = inr weeks →
  get_prop (body req) "normal_rate" = inr normal_rate →
  get_prop (body req) "punctual_rate" = inr punctual_rate →
  truthy weeks = true → truthy normal_rate = true → truthy punctual_rate = true →
  let out := run (post_terms T req) faults s in
  let term : gmap string jsval :=
    {[ "weeks" := weeks; "normal_rate" := normal_rate; "punctual_rate" := punctual_rate ]} in
  answer out = inr (json 201 (JObject term))
  ∧ store_after out = Db (products_rows s) (terms_rows s ++ [term]).
Proof.
  intros Hf Hw Hn Hp Htw Htn Htp out term. subst out.
  rewrite (run_post_terms_valid _ faults s _ _ _ Hw Hn Hp Htw Htn Htp), Hf.
  assert (Hwire : wire term = term).
  { apply map_eq. intros k. unfold wire.
    destruct (term !! k) as [v|] eqn:Hk.
    - apply map_lookup_filter_Some. split; [exact Hk|]. cbn.
      subst term.
      apply lookup_insert_Some in Hk as [[_ <-] | [_ Hk]]; [apply truthy_defined, Htw|].
      apply lookup_insert_Some in Hk as [[_ <-] | [_ Hk]]; [apply truthy_defined, Htn|].
      apply lookup_singleton_Some in Hk as [_ <-]. apply truthy_defined, Htp.
    - apply map_lookup_filter_None. left. exact Hk. }
  fold term. rewrite Hwire. split; reflexivity.
Qed.


(** *** Fetching one product *)

Lemma run_get_product_found req faults s r :
  default None (head faults) = None →
  select_eq "sku" (JString (params_sku req)) (products_rows s) = [r] →
  run (get_product_by_sku T req) faults s =
    (inr (json 200 (JObject r)), s,
     [EvStore (SelectSingle products "sku" (JString (params_sku req))) (ok (JObject r))]).
Proof.
  intros Hf Hr. unfold get_product_by_sku, await. cbn. rewrite Hf. cbn.
  unfold select_eq in Hr. rewrite Hr. reflexivity.
Qed.

Lemma run_get_product_not_single req faults s :
  default None (head faults) = None →
  (∀ r, select_eq "sku" (JString (params_sku req)) (products_rows s) ≠ [r]) →
  run (get_product_by_sku T req) faults s =
    (inr (json 404 (error_body "Producto no encontrado.")), s,
     [EvStore (SelectSingle products "sku" (JString (params_sku req))) (failed PGRST116)]).
Proof.
  intros Hf Hr. unfold get_product_by_sku, await. cbn. rewrite Hf. cbn.
  unfold select_eq in Hr.
  destruct (filter _ (products_rows s)) as [|r [|r' l]] eqn:E; try reflexivity.
  destruct (Hr r). reflexivity.
Qed.

(** X8.  When the store reports no error, [GET /products/:sku] answers
    200 with the row exactly when one row has that sku.  With no such
    row, and also with several, the answer is the 404 of a product not
    found.  The store is left as it was. *)
Theorem get_product_answers_the_single_row req faults s :
  default None (head faults) = None →
  let out := run (get_product_by_sku T req) faults s in
  let hits := select_eq "sku" (JString (params_sku req)) (products_rows s) in
  store_after out = s
  ∧ (∀ r, hits = [r] → answer out = inr (json 200 (JObject r)))
  ∧ (hits = [] → answer out = inr (json 404 (error_body "Producto no encontrado.")))
  ∧ ((length hits ≥ 2)%nat →
     answer out = inr (json 404 (error_body "Producto no encontrado."))).
Proof.
  intros Hf out hits. subst out.
  split; [|split; [|split]].
  - destruct hits as [|r [|r' l]] eqn:E; subst hits.
    + rewrite run_get_product_not_single; [reflexivity | exact Hf | congruence].
    + rewrite (run_get_product_found _ _ _ _ Hf E). reflexivity.
    + rewrite run_get_product_not_single; [reflexivity | exact Hf | congruence].
  - intros r Hr. rewrite (run_get_product_found _ _ _ _ Hf Hr). reflexivity.
  - intros Hr. rewrite run_get_product_not_single; [reflexivity | exact Hf |].
    subst hits. congruence.
  - intros Hr. rewrite run_get_product_not_single; [reflexivity | exact Hf |].
    intros r E. subst hits. rewrite E in Hr. cbn in Hr. lia.
Qed.

Lemma matches_sku_string (r : gmap string jsval) k :
  r !! "sku" = Some (JString k) → matches "sku" (JString k) r = true.
Proof. intros H. unfold matches. rewrite H. cbn. apply String.eqb_refl. Qed.

Lemma select_eq_app col v (l1 l2 : list (gmap string jsval)) :
  select_eq col v (l1 ++ l2) = (select_eq col v l1 ++ select_eq col v l2)%list.
Proof. apply filter_app. Qed.

Lemma select_eq_singleton col v (r : gmap string jsval) :
  matches col v r = true → select_eq col v [r] = [r].
Proof.
  intros H. unfold select_eq. rewrite filter_cons, decide_True; [reflexivity|].
  rewrite H. exact I.
Qed.

(** X9.  Create, then fetch: after a [POST /products] that was answered
    201 for a sku no product had, [GET /products/:sku] with that sku is
    answered 200 with the row the create answered. *)
Theorem created_product_can_be_fetched req req' faults faults' s k name description price :
  default None (head faults) = None →
  default None (head faults') = None →
  get_prop (body req) "sku" = inr (JString k) →
  get_prop (body req) "name" = inr name →
  get_prop (body req) "description" = inr description →
  get_prop (body req) "price" = inr price →
  k ≠ "" → truthy name = true → truthy price = true →
  params_sku req' = k →
  select_eq "sku" (JString k) (products_rows s) = [] →
  let created := run (post_products T req) faults s in
  ∃ row : gmap string jsval,
    answer created = inr (json 201 (JObject row))
    ∧ row !! "sku" = Some (JString k)
    ∧ answer (run (get_product_by_sku T req') faults' (store_after created))
      = inr (json 200 (JObject row)).
Proof.
  intros Hf Hf' Hs Hn Hd Hp Hk Htn Htp Hreq Hfresh created. subst created.
  assert (Hts : truthy (JString k) = true).
  { cbn. destruct (String.eqb_spec k ""); [contradiction | reflexivity]. }
  rewrite (run_post_products_valid _ faults s _ _ _ _ Hs Hn Hd Hp Hts Htn Htp), Hf.
  set (row := wire _).
  assert (Hrow : row !! "sku" = Some (JString k)).
  { subst row. apply wire_lookup; reflexivity. }
  exists row. split; [reflexivity|]. split; [exact Hrow|].
  unfold store_after. cbn [fst snd].
  rewrite (run_get_product_found req' faults' _ row Hf'); [reflexivity|].
  rewrite Hreq. cbn [products_rows].
  rewrite select_eq_app, Hfresh. cbn.
  apply select_eq_singleton, matches_sku_string, Hrow.
Qed.


(** *** Updating and deleting, then fetching *)

Lemma matches_patch_row name description price v (x : gmap string jsval) :
  matches "sku" v
    (patch_row {[ "name" := name; "description" := description; "price" := price ]}
               "sku" v x)
  = matches "sku" v x.
Proof.
  unfold matches.
  rewrite patch_row_other_column by apply update_payload_has_no_sku. reflexivity.
Qed.

Lemma select_eq_patch name description price v (l : list (gmap string jsval)) :
  let f := patch_row {[ "name" := name; "description" := description; "price" := price ]}
                     "sku" v in
  select_eq "sku" v (f <$> l) = f <$> select_eq "sku" v l.
Proof.
  intros f. unfold select_eq. induction l as [|x l IH]; [reflexivity|].
  rewrite fmap_cons, !filter_cons. subst f. rewrite matches_patch_row, IH.
  destruct (decide (matches "sku" v x)); reflexivity.
Qed.

Lemma select_eq_single_only col v (l : list (gmap string jsval)) r x :
  select_eq col v l = [r] → x ∈ l → matches col v x = true → x = r.
Proof.
  intros Hr Hx Hm.
  assert (Hin : x ∈ select_eq col v l).
  { apply list_elem_of_filter. split; [rewrite Hm; exact I | exact Hx]. }
  rewrite Hr in Hin. apply list_elem_of_singleton in Hin. exact Hin.
Qed.

Lemma run_put_product_found req faults s name description price r :
  default None (head faults) = None →
  get_prop (body req) "name" = inr name →
  get_prop (body req) "description" = inr description →
  get_prop (body req) "price" = inr price →
  truthy name = true → truthy price = true →
  select_eq "sku" (JString (params_sku req)) (products_rows s) = [r] →
  let patch : gmap string jsval :=
    {[ "name" := name; "description" := description; "price" := price ]} in
  let v := JString (params_sku req) in
  run (put_product T req) faults s =
    (inr (json 200 (JObject (wire patch ∪ r))),
     Db (patch_row patch "sku" v <$> products_rows s) (terms_rows s),
     [EvStore (UpdateSelect products patch "sku" v)
              (ok (JArray [JObject (wire patch ∪ r)]))]).
Proof.
  intros Hf Hn Hd Hp Htn Htp Hr patch v. subst v.
  rewrite (run_put_product_valid _ faults s _ _ _ Hn Hd Hp Htn Htp), Hf.
  fold patch.
  assert (Hhit : patch_row patch "sku" (JString (params_sku req)) r = wire patch ∪ r).
  { unfold patch_row. rewrite (select_eq_single_matches _ _ _ _ Hr). reflexivity. }
  unfold exec_faulty, exec. cbn [fst snd rows_of with_rows].
  rewrite Hr. cbn. rewrite Hhit. reflexivity.
Qed.

(** X10.  A valid [PUT /products/:sku] for the sku of one product, on a
    store that reports no error, is answered 200 with the updated row:
    [name] and [price] are the submitted ones, [description] is the
    submitted one or, when none was submitted, the old one, and every
    other column is as before.  In the table that row takes the place of
    the old one, every other row stays, and the terms are left alone. *)
Theorem put_product_updates_the_matching_row req faults s name description price r :
  default None (head faults) = None →
  get_prop (body req) "name" = inr name →
  get_prop (body req) "description" = inr description →
  get_prop (body req) "price" = inr price →
  truthy name = true → truthy price = true →
  select_eq "sku" (JString (params_sku req)) (products_rows s) = [r] →
  let out := run (put_product T req) faults s in
  ∃ r' : gmap string jsval,
    answer out = inr (json 200 (JObject r'))
    ∧ r' !! "name" = Some name ∧ r' !! "price" = Some price
    ∧ r' !! "description"
        = (if is_undefined description then r !! "description" else Some description)
    ∧ (∀ k, k ≠ "name" → k ≠ "description" → k ≠ "price" → r' !! k = r !! k)
    ∧ products_rows (store_after out)
        = (λ x, if matches "sku" (JString (params_sku req)) x then r' else x)
            <$> products_rows s
    ∧ terms_rows (store_after out) = terms_rows s.
Proof.
  intros Hf Hn Hd Hp Htn Htp Hr out. subst out.
  rewrite (run_put_product_found _ _ _ _ _ _ _ Hf Hn Hd Hp Htn Htp Hr).
  set (patch := ({[ "name" := name; "description" := description; "price" := price ]}
                   : gmap string jsval)).
  exists (wire patch ∪ r). split; [reflexivity|].
  split; [apply lookup_union_Some_l, wire_lookup; [reflexivity | apply truthy_defined, Htn]|].
  split; [apply lookup_union_Some_l, wire_lookup; [reflexivity | apply truthy_defined, Htp]|].
  split; [|split; [|split]].
  - destruct (is_undefined description) eqn:Hu.
    + destruct description; try discriminate.
      apply lookup_union_r, wire_lookup_undefined. reflexivity.
    + apply lookup_union_Some_l, wire_lookup; [reflexivity | exact Hu].
  - intros k H1 H2 H3. apply lookup_union_r.
    unfold wire. apply map_lookup_filter_None. left. subst patch.
    rewrite !lookup_insert_ne by congruence. apply lookup_singleton_ne. congruence.
  - unfold store_after. cbn [fst snd products_rows].
    apply list_fmap_ext. intros i x Hx. unfold patch_row.
    destruct (matches "sku" (JString (params_sku req)) x) eqn:Hm; [|reflexivity].
    f_equal. eapply select_eq_single_only; eauto.
    apply list_elem_of_lookup. eauto.
  - reflexivity.
Qed.

(** X11.  Update, then fetch: after a valid [PUT /products/:sku] for the
    sku of one product, [GET /products/:sku] with the same sku is
    answered 200 with the row the update answered. *)
Theorem updated_product_can_be_fetched req req' faults faults' s name description price r :
  default None (head faults) = None →
  default None (head faults') = None →
  get_prop (body req) "name" = inr name →
  get_prop (body req) "description" = inr description →
  get_prop (body req) "price" = inr price →
  truthy name = true → truthy price = true →
  params_sku req' = params_sku req →
  select_eq "sku" (JString (params_sku req)) (products_rows s) = [r] →
  let updated := run (put_product T req) faults s in
  ∃ r' : gmap string jsval,
    answer updated = inr (json 200 (JObject r'))
    ∧ r' !! "name" = Some name
    ∧ answer (run (get_product_by_sku T req') faults' (store_after updated))
      = inr (json 200 (JObject r')).
Proof.
  intros Hf Hf' Hn Hd Hp Htn Htp Hreq Hr updated. subst updated.
  rewrite (run_put_product_found _ _ _ _ _ _ _ Hf Hn Hd Hp Htn Htp Hr).
  set (patch := ({[ "name" := name; "description" := description; "price" := price ]}
                   : gmap string jsval)).
  exists (wire patch ∪ r). split; [reflexivity|].
  split; [apply lookup_union_Some_l, wire_lookup; [reflexivity | apply truthy_defined, Htn]|].
  unfold store_after. cbn [fst snd].
  rewrite (run_get_product_found req' faults' _ (wire patch ∪ r) Hf'); [reflexivity|].
  rewrite Hreq. cbn [products_rows]. subst patch.
  rewrite (select_eq_patch name description price), Hr. cbn.
  unfold patch_row. rewrite (select_eq_single_matches _ _ _ _ Hr). reflexivity.
Qed.

Lemma run_delete_product req faults s :
  default None (head faults) = None →
  run (delete_product T req) faults s =
    (inr (send 204),
     Db (filter (λ x, ¬ matches "sku" (JString (params_sku req)) x) (products_rows s))
        (terms_rows s),
     [EvStore (DeleteWhere products "sku" (JString (params_sku req))) (ok JNull)]).
Proof.
  intros Hf. unfold delete_product, await. cbn. rewrite Hf. reflexivity.
Qed.

Lemma select_eq_after_delete col v (l : list (gmap string jsval)) :
  select_eq col v (filter (λ x, ¬ matches col v x) l) = [].
Proof.
  unfold select_eq. induction l as [|x l IH]; [reflexivity|].
  rewrite filter_cons. destruct (decide (¬ matches col v x)) as [Hx|Hx]; [|exact IH].
  rewrite filter_cons, decide_False by exact Hx. exact IH.
Qed.

(** X12.  Delete, then fetch: after a [DELETE /products/:sku] that the
    store reports no error for, [GET /products/:sku] with the same sku is
    answered 404.  The delete removes the rows of that sku and no other,
    the terms are left alone, and a second delete changes nothing. *)
Theorem deleted_product_is_gone req req' faults faults' s :
  default None (head faults) = None →
  default None (head faults') = None →
  params_sku req' = params_sku req →
  let deleted := run (delete_product T req) faults s in
  answer deleted = inr (send 204)
  ∧ answer (run (get_product_by_sku T req') faults' (store_after deleted))
    = inr (json 404 (error_body "Producto no encontrado."))
  ∧ (∀ x, x ∈ products_rows (store_after deleted)
          ↔ x ∈ products_rows s ∧ matches "sku" (JString (params_sku req)) x = false)
  ∧ terms_rows (store_after deleted) = terms_rows s
  ∧ store_after (run (delete_product T req) faults (store_after deleted))
    = store_after deleted.
Proof.
  intros Hf Hf' Hreq deleted. subst deleted.
  rewrite !(run_delete_product _ _ _ Hf).
  unfold store_after, answer. cbn [fst snd products_rows terms_rows].
  split; [reflexivity|]. split; [|split; [|split]].
  - rewrite run_get_product_not_single; [reflexivity | exact Hf' |].
    intros x. rewrite Hreq. cbn [products_rows].
    rewrite select_eq_after_delete. discriminate.
  - intros x. rewrite list_elem_of_filter.
    destruct (matches "sku" (JString (params_sku req)) x); cbn; intuition congruence.
  - reflexivity.
  - f_equal. apply filter_out_none, select_eq_after_delete.
Qed.


(** *** Bodies that are turned away *)

(** X13.  A [PUT /products/:sku] request whose [name] or [price] is
    falsy (missing, empty, 0) is answered 400 with the message naming the
    two fields; the run contains no store call and leaves the store as it
    was. *)
Theorem put_product_rejects_before_store req faults s name price :
  get_prop (body req) "name" = inr name →
  get_prop (body req) "price" = inr price →
  truthy name = false ∨ truthy price = false →
  let out := run (put_product T req) faults s in
  answer out = inr (json 400 (error_body "Nombre y precio son requeridos"))
  ∧ trace_of out = []
  ∧ store_after out = s.
Proof.
  intros Hn Hp Hf out. subst out.
  rewrite (run_put_product_invalid _ _ _ _ _ Hn Hp Hf). auto.
Qed.

(** X14.  A [POST /terms] request whose [weeks], [normal_rate] or
    [punctual_rate] is falsy is answered 400 with the handler's message;
    the run contains no store call and leaves the store as it was. *)
Theorem post_terms_rejects_before_store req faults s weeks normal_rate punctual_rate :
  get_prop (body req) "weeks" = inr weeks →
  get_prop (body req) "normal_rate" = inr normal_rate →
  get_prop (body req) "punctual_rate" = inr punctual_rate →
  truthy weeks = false ∨ truthy normal_rate = false ∨ truthy punctual_rate = false →
  let out := run (post_terms T req) faults s in
  answer out = inr (json 400 (error_body (terms_required T)))
  ∧ trace_of out = []
  ∧ store_after out = s.
Proof.
  intros Hw Hn Hp Hf out. subst out.
  rewrite (run_post_terms_invalid _ _ _ _ _ _ Hw Hn Hp Hf). auto.
Qed.

(** X15.  A body that is [undefined] or [null] stops the four handlers
    that destructure it at the destructuring: the [TypeError] is logged,
    the answer is the handler's 500, and nothing is asked of the store. *)
Theorem missing_body_is_a_500 rt req faults s :
  reads_body rt = true →
  body req = JUndefined ∨ body req = JNull →
  run (handler' rt req) faults s =
    (inr (json 500 (error_body (fail_text T rt))), s,
     [EvLog (log_text T rt) TypeError]).
Proof.
  intros Hrt Hb.
  assert (Hget : ∀ k, get_prop (body req) k = inl TypeError).
  { intros k. destruct Hb as [-> | ->]; reflexivity. }
  destruct rt; try discriminate; cbn [handler log_text fail_text].
  - unfold post_products. rewrite !Hget. reflexivity.
  - unfold put_product. rewrite !Hget. reflexivity.
  - unfold post_terms. rewrite !Hget. reflexivity.
  - unfold post_quote. rewrite !Hget. reflexivity.
Qed.

(** X16.  A body that has none of the fields (an empty object, an array,
    a bare string or number) is turned away by the three validating
    handlers with 400 and no store call. *)
Theorem fieldless_body_is_a_400 req faults s :
  (∀ k, get_prop (body req) k = inr JUndefined) →
  run (post_products T req) faults s
    = (inr (json 400 (error_body "SKU, nombre y precio son requeridos.")), s, [])
  ∧ run (put_product T req) faults s
    = (inr (json 400 (error_body "Nombre y precio son requeridos")), s, [])
  ∧ run (post_terms T req) faults s
    = (inr (json 400 (error_body (terms_required T))), s, []).
Proof.
  intros Hget. split; [|split].
  - apply (run_post_products_invalid _ _ _ JUndefined JUndefined JUndefined); auto.
  - apply (run_put_product_invalid _ _ _ JUndefined JUndefined); auto.
  - apply (run_post_terms_invalid _ _ _ JUndefined JUndefined JUndefined); auto.
Qed.


(** *** A store that fails *)

Lemma get_prop_cases v :
  (∀ k, get_prop v k = inl TypeError) ∨ (∀ k, ∃ x, get_prop v k = inr x).
Proof. destruct v; cbn; eauto. Qed.

Lemma truthy_cases v : truthy v = true ∨ truthy v = false.
Proof. destruct (truthy v); auto. Qed.

(** X17.  When the first store call of a request fails, the store is
    left as it was and the answer is the handler's generic 500; the one
    exception is the lookup of a single product, where the no-rows code
    is answered 404 (and is not covered here).  A request that
    validation turns away (400) or whose body cannot be destructured
    never reaches the store, so the failure is not seen. *)
Theorem store_failure_is_a_500 rt req faults s e :
  default None (head faults) = Some e →
  (rt = GetProductBySku → code e ≠ "PGRST116") →
  let out := run (handler' rt req) faults s in
  store_after out = s
  ∧ ((answer out = inr (json 500 (error_body (fail_text T rt)))
      ∧ (store_calls (trace_of out) = []
         ∨ ∃ q, store_calls (trace_of out) = [(q, failed e)]))
     ∨ (∃ resp, answer out = inr resp ∧ status resp = 400%Z ∧ trace_of out = [])).
Proof.
  intros Hf Hcode out. subst out.
  destruct rt; cbn [handler log_text fail_text].
  - rewrite run_get_products, Hf. cbn. eauto 10.
  - unfold get_product_by_sku, await. cbn. rewrite Hf. cbn.
    destruct (String.eqb_spec (code e) "PGRST116") as [Hc|Hc];
      [destruct (Hcode eq_refl Hc)|]. cbn. eauto 10.
  - destruct (get_prop_cases (body req)) as [Hget|Hget].
    { unfold post_products. rewrite !Hget. cbn. auto. }
    destruct (Hget "sku") as [sku Hs], (Hget "name") as [name Hn],
      (Hget "description") as [description Hd], (Hget "price") as [price Hp].
    destruct (truthy_cases sku) as [Hts|Hts], (truthy_cases name) as [Htn|Htn],
      (truthy_cases price) as [Htp|Htp];
      first [ rewrite (run_post_products_valid _ faults s _ _ _ _ Hs Hn Hd Hp Hts Htn Htp), Hf;
              cbn; eauto 10
            | rewrite (run_post_products_invalid _ faults s _ _ _ Hs Hn Hp) by auto;
              cbn; eauto 10 ].
  - destruct (get_prop_cases (body req)) as [Hget|Hget].
    { rewrite (run_put_product_no_body _ _ _ _ (Hget "name")). cbn. auto. }
    destruct (Hget "name") as [name Hn],
      (Hget "description") as [description Hd], (Hget "price") as [price Hp].
    destruct (truthy_cases name) as [Htn|Htn], (truthy_cases price) as [Htp|Htp];
      first [ rewrite (run_put_product_valid _ faults s _ _ _ Hn Hd Hp Htn Htp), Hf;
              cbn; eauto 10
            | rewrite (run_put_product_invalid _ faults s _ _ Hn Hp) by auto;
              cbn; eauto 10 ].
  - unfold delete_product, await. cbn. rewrite Hf. cbn. eauto 10.
  - rewrite run_get_terms, Hf. cbn. eauto 10.
  - destruct (get_prop_cases (body req)) as [Hget|Hget].
    { unfold post_terms. rewrite !Hget. cbn. auto. }
    destruct (Hget "weeks") as [weeks Hw], (Hget "normal_rate") as [nr Hn],
      (Hget "punctual_rate") as [pr Hp].
    destruct (truthy_cases weeks) as [Htw|Htw], (truthy_cases nr) as [Htn|Htn],
      (truthy_cases pr) as [Htp|Htp];
      first [ rewrite (run_post_terms_valid _ faults s _ _ _ Hw Hn Hp Htw Htn Htp), Hf;
              cbn; eauto 10
            | rewrite (run_post_terms_invalid _ faults s _ _ _ Hw Hn Hp) by auto;
              cbn; eauto 10 ].
  - destruct (get_prop_cases (body req)) as [Hget|Hget].
    { rewrite (run_post_quote_no_body _ _ _ _ (Hget "sku")). cbn. auto. }
    destruct (Hget "sku") as [sku Hs], (Hget "weeks") as [weeks Hw].
    rewrite (run_post_quote_body _ _ _ _ _ Hs Hw), Hf. cbn. eauto 10.
Qed.

(** *** Quotes on what the store holds *)

(** X18.  Nothing checks that a stored price is a number.  When the
    product's [price] is text, [price * rate] converts it to a number but
    [+ price] concatenates: the payment is the number read from the text
    of the product followed by the text of the price, divided by the
    weeks, and the answer is still 200. *)
Theorem quote_concatenates_a_text_price req faults s sku w p t ps normal_rate punctual_rate :
  fault_free faults →
  get_prop (body req) "sku" = inr sku →
  get_prop (body req) "weeks" = inr (JNumber w) →
  select_eq "sku" sku (products_rows s) = [p] →
  select_eq "weeks" (JNumber w) (terms_rows s) = [t] →
  p !! "price" = Some (JString ps) →
  t !! "normal_rate" = Some (JNumber normal_rate) →
  t !! "punctual_rate" = Some (JNumber punctual_rate) →
  let glued rate := (NumberToString (StringToNumber ps * rate)%float ++ ps)%string in
  answer (run (post_quote' req) faults s) = inr (json 200 (JObject
    {[ "normalPayment" := JNumber (StringToNumber (glued normal_rate) / w)%float;
       "punctualPayment" := JNumber (StringToNumber (glued punctual_rate) / w)%float ]})).
Proof.
  intros Hff Hs Hw Hp Ht Hprice Hnr Hpr glued. subst glued.
  rewrite (run_post_quote_body _ _ _ _ _ Hs Hw).
  rewrite (exec_faulty_single_found _ products _ _ _ _ (fault_free_head _ Hff) Hp).
  rewrite (exec_faulty_single_found _ terms _ _ _ _
             (fault_free_head _ (fault_free_tail _ Hff)) Ht).
  cbn. rewrite Hprice, Hnr, Hpr. reflexivity.
Qed.


Lemma exec_faulty_single_cases t col v s :
  (∃ r, select_eq col v (rows_of t s) = [r]
        ∧ (exec_faulty None (SelectSingle t col v) s).1 = ok (JObject r))
  ∨ ((∀ r, select_eq col v (rows_of t s) ≠ [r])
     ∧ (exec_faulty None (SelectSingle t col v) s).1 = failed PGRST116).
Proof.
  unfold exec_faulty, exec.
  destruct (select_eq col v (rows_of t s)) as [|r [|r' l]]; cbn.
  - right. split; [discriminate | reflexivity].
  - left. eauto.
  - right. split; [discriminate | reflexivity].
Qed.

(** X19.  On a store that reports no error of its own, a quote is
    answered 200 exactly when one product has the given sku and one term
    has the given weeks; in every other case it is answered 500. *)
Theorem quote_is_200_exactly_when_both_rows_are_found req faults s sku weeks :
  fault_free faults →
  get_prop (body req) "sku" = inr sku →
  get_prop (body req) "weeks" = inr weeks →
  let out := run (post_quote' req) faults s in
  (status_of out = Some 200%Z
   ↔ (∃ p, select_eq "sku" sku (products_rows s) = [p])
     ∧ (∃ t, select_eq "weeks" weeks (terms_rows s) = [t]))
  ∧ (status_of out = Some 200%Z ∨ status_of out = Some 500%Z).
Proof.
  intros Hff Hs Hw out. subst out.
  rewrite (run_post_quote_body _ _ _ _ _ Hs Hw).
  rewrite (fault_free_head _ Hff), (fault_free_head _ (fault_free_tail _ Hff)).
  destruct (exec_faulty_single_cases products "sku" sku s) as [(p & Hp & ->) | (Hp & ->)];
    cbn [error ok failed]; cycle 1.
  { unfold status_of, answer. cbn. split; [|auto].
    split; [discriminate|]. intros [[p Hp'] _]. destruct (Hp p Hp'). }
  destruct (exec_faulty_single_cases terms "weeks" weeks s) as [(t & Ht & ->) | (Ht & ->)];
    cbn [error ok failed data]; cycle 1.
  { unfold status_of, answer. cbn. split; [|auto].
    split; [discriminate|]. intros [_ [t Ht']]. destruct (Ht t Ht'). }
  cbn [get_prop]. unfold status_of, answer. cbn. split; [|auto].
  split; [eauto|reflexivity].
Qed.

End Properties.

(** ** The properties on the sample data *)

(** The sample quote: a phone of price 1000 over 4 weeks at rates 0.1 and
    0.05 costs 275 a week, or 262.5 when paid on time. *)
Lemma quote_formula_witness :
  answer (run (post_quote Demo.number_text Demo.text_number index_js Demo.quote_phone_4)
              [] Demo.shop)
  = inr (json 200 (JObject
      {[ "normalPayment" := JNumber 275; "punctualPayment" := JNumber 262.5 ]})).
Proof.
  refine (proj2 (quote_formula Demo.number_text Demo.text_number index_js
                   Demo.quote_phone_4 [] Demo.shop (JString "A1") 4
                   Demo.phone Demo.four_weeks 1000 0.1 0.05 _ _ _ _ _ _ _ _)
                eq_refl eq_refl eq_refl eq_refl).
  - constructor.
  - reflexivity.
  - reflexivity.
  - vm_compute. reflexivity.
  - vm_compute. reflexivity.
  - reflexivity.
  - reflexivity.
  - reflexivity.
Defined.

(** A quote for a sku the shop does not have is answered 500, also in the
    other copy of the program. *)
Lemma quote_not_found_is_500_witness :
  answer (run (post_quote Demo.number_text Demo.text_number part_000 Demo.quote_unknown_sku)
              [] Demo.shop)
  = inr (json 500 (error_body "Error al calcular la cotización"))
  ∧ store_after (run (post_quote Demo.number_text Demo.text_number part_000
                        Demo.quote_unknown_sku) [] Demo.shop)
    = Demo.shop.
Proof.
  refine (quote_not_found_is_500 Demo.number_text Demo.text_number part_000
            Demo.quote_unknown_sku [] Demo.shop (JString "Z9") (JNumber 4) _ _ _).
  - reflexivity.
  - reflexivity.
  - left. vm_compute. reflexivity.
Defined.

(** Creating a product of price 0 is turned away with no store call. *)
Lemma post_products_rejects_before_store_witness :
  answer (run (post_products index_js Demo.create_free_phone) [] Demo.shop)
    = inr (json 400 (error_body "SKU, nombre y precio son requeridos."))
  ∧ store_calls (trace_of (run (post_products index_js Demo.create_free_phone) [] Demo.shop))
    = []
  ∧ store_after (run (post_products index_js Demo.create_free_phone) [] Demo.shop)
    = Demo.shop.
Proof.
  refine (post_products_rejects_before_store index_js Demo.create_free_phone [] Demo.shop
            (JString "B2") (JString "Free") (JNumber 0) _ _ _ _).
  - reflexivity.
  - reflexivity.
  - reflexivity.
  - right. right. reflexivity.
Defined.


(** Renaming a product the shop does not have is answered 200 with an
    undefined body. *)
Lemma put_unknown_sku_answers_200_empty_witness :
  answer (run (put_product index_js Demo.rename_unknown) [] Demo.shop)
    = inr (json 200 JUndefined)
  ∧ store_after (run (put_product index_js Demo.rename_unknown) [] Demo.shop) = Demo.shop
  ∧ ∃ name price,
      get_prop (body Demo.rename_unknown) "name" = inr name ∧ truthy name = true
      ∧ get_prop (body Demo.rename_unknown) "price" = inr price ∧ truthy price = true.
Proof.
  refine (put_unknown_sku_answers_200_empty index_js Demo.rename_unknown [] Demo.shop _ _).
  - vm_compute. reflexivity.
  - eexists _, _. split; [left | reflexivity].
Defined.

(** A free product and a term of 0 weeks are both turned away. *)
Lemma required_fields_are_tested_for_truth_witness :
  answer (run (post_products index_js Demo.create_free_phone) [] Demo.shop)
    = inr (json 400 (error_body "SKU, nombre y precio son requeridos."))
  ∧ answer (run (post_terms index_js Demo.create_free_term) [] Demo.shop)
    = inr (json 400 (error_body "Weeks, normal_rate, and punctual_rate are required")).
Proof.
  split.
  - refine (proj1 (required_fields_are_tested_for_truth index_js Demo.create_free_phone
                     [] Demo.shop _ eq_refl) _).
    left. reflexivity.
  - refine (proj2 (required_fields_are_tested_for_truth index_js Demo.create_free_term
                     [] Demo.shop _ eq_refl) _).
    left. reflexivity.
Defined.

(** Further runs on the sample data. *)

Example get_unknown_sku_is_404 :
  answer (run (get_product_by_sku index_js Demo.about_unknown) [] Demo.shop)
  = inr (json 404 (error_body "Producto no encontrado.")).
Proof. vm_compute. reflexivity. Qed.

Example get_during_outage_is_500 :
  answer (run (get_product_by_sku index_js Demo.about_unknown) [Some Demo.timeout] Demo.shop)
  = inr (json 500 (error_body "Failed to fetch product")).
Proof. vm_compute. reflexivity. Qed.

Example delete_unknown_sku_is_204 :
  run (delete_product index_js Demo.about_unknown) [] Demo.shop
  = (inr (send 204), Demo.shop,
     [EvStore (DeleteWhere products "sku" (JString "Z9")) (ok JNull)]).
Proof. vm_compute. reflexivity. Qed.

Example rename_phone_keeps_sku :
  products_rows (store_after (run (put_product index_js Demo.rename_phone) [] Demo.shop))
  = [ {[ "sku" := JString "A1"; "name" := JString "Tablet"; "price" := JNumber 300 ]} ].
Proof. vm_compute. reflexivity. Qed.

Example quote_during_outage_stops_after_first_call :
  store_calls (trace_of
    (run (post_quote Demo.number_text Demo.text_number index_js Demo.quote_phone_4)
         [Some Demo.timeout] Demo.shop))
  = [(SelectSingle products "sku" (JString "A1"), failed Demo.timeout)].
Proof. vm_compute. reflexivity. Qed.

(** ** More properties on the sample data *)

(** Creating the tablet answers 201 with a row that holds its sku. *)
Lemma post_products_creates_the_row_witness :
  ∃ row : gmap string jsval,
    answer (run (post_products index_js Samples.create_tablet) [] Demo.shop)
      = inr (json 201 (JObject row))
    ∧ row !! "sku" = Some (JString "B2")
    ∧ row !! "description" = Some (JString "10 inch").
Proof.
  destruct (post_products_creates_the_row index_js Samples.create_tablet [] Demo.shop
              (JString "B2") (JString "Tablet") (JString "10 inch") (JNumber 300)
              eq_refl eq_refl eq_refl eq_refl eq_refl eq_refl eq_refl eq_refl)
    as (row & Hanswer & _ & Hsku & _ & _ & Hdescription & _).
  exists row. split; [exact Hanswer|]. split; [exact Hsku | exact Hdescription].
Defined.

(** Creating the term of 8 weeks answers 201 and appends it. *)
Lemma post_terms_creates_the_term_witness :
  answer (run (post_terms index_js Samples.create_eight_weeks) [] Demo.shop)
    = inr (json 201 (JObject Samples.eight_weeks))
  ∧ store_after (run (post_terms index_js Samples.create_eight_weeks) [] Demo.shop)
    = Db [Demo.phone] [Demo.four_weeks; Demo.zero_weeks; Samples.eight_weeks].
Proof.
  exact (post_terms_creates_the_term index_js Samples.create_eight_weeks [] Demo.shop
           (JNumber 8) (JNumber 0.2) (JNumber 0.1)
           eq_refl eq_refl eq_refl eq_refl eq_refl eq_refl eq_refl).
Defined.

(** Fetching the phone answers 200 with its row. *)
Lemma get_product_answers_the_single_row_witness :
  answer (run (get_product_by_sku index_js Samples.about_phone) [] Demo.shop)
  = inr (json 200 (JObject Demo.phone)).
Proof.
  refine (proj1 (proj2 (get_product_answers_the_single_row index_js Samples.about_phone
                          [] Demo.shop eq_refl)) Demo.phone _).
  vm_compute. reflexivity.
Defined.

(** The tablet can be fetched once it is created. *)
Lemma created_product_can_be_fetched_witness :
  ∃ row : gmap string jsval,
    answer (run (post_products index_js Samples.create_tablet) [] Demo.shop)
      = inr (json 201 (JObject row))
    ∧ row !! "sku" = Some (JString "B2")
    ∧ answer (run (get_product_by_sku index_js Samples.about_tablet) []
                (store_after (run (post_products index_js Samples.create_tablet)
                                  [] Demo.shop)))
      = inr (json 200 (JObject row)).
Proof.
  refine (created_product_can_be_fetched index_js Samples.create_tablet Samples.about_tablet
            [] [] Demo.shop "B2" (JString "Tablet") (JString "10 inch") (JNumber 300)
            eq_refl eq_refl eq_refl eq_refl eq_refl eq_refl _ eq_refl eq_refl eq_refl _).
  - discriminate.
  - vm_compute. reflexivity.
Defined.

(** Repricing the phone answers 200 with the new price and the old sku. *)
Lemma put_product_updates_the_matching_row_witness :
  ∃ r' : gmap string jsval,
    answer (run (put_product index_js Samples.reprice_phone) [] Demo.shop)
      = inr (json 200 (JObject r'))
    ∧ r' !! "price" = Some (JNumber 900)
    ∧ r' !! "sku" = Some (JString "A1").
Proof.
  assert (Hone : select_eq "sku" (JString (params_sku Samples.reprice_phone))
                   (products_rows Demo.shop) = [Demo.phone])
    by (vm_compute; reflexivity).
  destruct (put_product_updates_the_matching_row index_js Samples.reprice_phone [] Demo.shop
              (JString "Phone") JUndefined (JNumber 900) Demo.phone
              eq_refl eq_refl eq_refl eq_refl eq_refl eq_refl Hone)
    as (r' & Hanswer & _ & Hprice & _ & Hother & _).
  exists r'. split; [exact Hanswer|]. split; [exact Hprice|].
  rewrite (Hother "sku"); [reflexivity | discriminate ..].
Defined.

(** The phone can be fetched once it is repriced. *)
Lemma updated_product_can_be_fetched_witness :
  ∃ r' : gmap string jsval,
    answer (run (put_product index_js Samples.reprice_phone) [] Demo.shop)
      = inr (json 200 (JObject r'))
    ∧ r' !! "name" = Some (JString "Phone")
    ∧ answer (run (get_product_by_sku index_js Samples.about_phone) []
                (store_after (run (put_product index_js Samples.reprice_phone)
                                  [] Demo.shop)))
      = inr (json 200 (JObject r')).
Proof.
  refine (updated_product_can_be_fetched index_js Samples.reprice_phone Samples.about_phone
            [] [] Demo.shop (JString "Phone") JUndefined (JNumber 900) Demo.phone
            eq_refl eq_refl eq_refl eq_refl eq_refl eq_refl eq_refl eq_refl _).
  vm_compute. reflexivity.
Defined.

(** The phone is gone once it is deleted. *)
Lemma deleted_product_is_gone_witness :
  answer (run (delete_product index_js Samples.about_phone) [] Demo.shop) = inr (send 204)
  ∧ answer (run (get_product_by_sku index_js Samples.about_phone) []
              (store_after (run (delete_product index_js Samples.about_phone)
                                [] Demo.shop)))
    = inr (json 404 (error_body "Producto no encontrado.")).
Proof.
  destruct (deleted_product_is_gone index_js Samples.about_phone Samples.about_phone
              [] [] Demo.shop eq_refl eq_refl eq_refl) as (Hdel & Hget & _).
  split; [exact Hdel | exact Hget].
Defined.

(** An update without a name is turned away. *)
Lemma put_product_rejects_before_store_witness :
  answer (run (put_product index_js Samples.rename_nothing) [] Demo.shop)
    = inr (json 400 (error_body "Nombre y precio son requeridos"))
  ∧ trace_of (run (put_product index_js Samples.rename_nothing) [] Demo.shop) = []
  ∧ store_after (run (put_product index_js Samples.rename_nothing) [] Demo.shop) = Demo.shop.
Proof.
  refine (put_product_rejects_before_store index_js Samples.rename_nothing [] Demo.shop
            JUndefined (JNumber 900) eq_refl eq_refl _).
  left. reflexivity.
Defined.

(** A term of 0 weeks is turned away. *)
Lemma post_terms_rejects_before_store_witness :
  answer (run (post_terms part_000 Demo.create_free_term) [] Demo.shop)
    = inr (json 400 (error_body "Semanas, tasa normal y tasa puntual son requeridos"))
  ∧ trace_of (run (post_terms part_000 Demo.create_free_term) [] Demo.shop) = []
  ∧ store_after (run (post_terms part_000 Demo.create_free_term) [] Demo.shop) = Demo.shop.
Proof.
  refine (post_terms_rejects_before_store part_000 Demo.create_free_term [] Demo.shop
            (JNumber 0) (JNumber 0.1) (JNumber 0.05) eq_refl eq_refl eq_refl _).
  left. reflexivity.
Defined.

(** A quote without a body is a logged 500. *)
Lemma missing_body_is_a_500_witness :
  run (handler Demo.number_text Demo.text_number index_js PostQuote Samples.no_body)
      [] Demo.shop
  = (inr (json 500 (error_body "Failed to calculate quote")), Demo.shop,
     [EvLog "Error calculating quote:" TypeError]).
Proof.
  refine (missing_body_is_a_500 Demo.number_text Demo.text_number index_js PostQuote
            Samples.no_body [] Demo.shop eq_refl _).
  left. reflexivity.
Defined.

(** An array as body has none of the fields. *)
Lemma fieldless_body_is_a_400_witness :
  run (post_products index_js Samples.array_body) [] Demo.shop
    = (inr (json 400 (error_body "SKU, nombre y precio son requeridos.")), Demo.shop, [])
  ∧ run (put_product index_js Samples.array_body) [] Demo.shop
    = (inr (json 400 (error_body "Nombre y precio son requeridos")), Demo.shop, [])
  ∧ run (post_terms index_js Samples.array_body) [] Demo.shop
    = (inr (json 400 (error_body "Weeks, normal_rate, and punctual_rate are required")),
       Demo.shop, []).
Proof.
  refine (fieldless_body_is_a_400 index_js Samples.array_body [] Demo.shop _).
  intros k. reflexivity.
Defined.

(** Fetching the phone during an outage is a 500 and changes nothing. *)
Lemma store_failure_is_a_500_witness :
  store_after (run (handler Demo.number_text Demo.text_number index_js GetProductBySku
                      Samples.about_phone) [Some Demo.timeout] Demo.shop)
  = Demo.shop.
Proof.
  refine (proj1 (store_failure_is_a_500 Demo.number_text Demo.text_number index_js
                   GetProductBySku Samples.about_phone [Some Demo.timeout] Demo.shop
                   Demo.timeout eq_refl _)).
  intros _. discriminate.
Defined.

(** A price stored as text is glued, not added. *)
Lemma quote_concatenates_a_text_price_witness :
  answer (run (post_quote Demo.number_text Demo.text_number index_js Demo.quote_phone_4)
              [] Samples.text_shop)
  = inr (json 200 (JObject
      {[ "normalPayment" :=
           JNumber (Demo.text_number
                      (Demo.number_text (Demo.text_number "1000" * 0.1)%float ++ "1000") / 4)%float;
         "punctualPayment" :=
           JNumber (Demo.text_number
                      (Demo.number_text (Demo.text_number "1000" * 0.05)%float ++ "1000") / 4)%float ]})).
Proof.
  refine (quote_concatenates_a_text_price Demo.number_text Demo.text_number index_js
            Demo.quote_phone_4 [] Samples.text_shop (JString "A1") 4
            Samples.text_phone Demo.four_weeks "1000" 0.1 0.05 _ _ _ _ _ _ _ _).
  - constructor.
  - reflexivity.
  - reflexivity.
  - vm_compute. reflexivity.
  - vm_compute. reflexivity.
  - reflexivity.
  - reflexivity.
  - reflexivity.
Defined.

(** The sample quote is a 200 because both rows are found. *)
Lemma quote_is_200_exactly_when_both_rows_are_found_witness :
  status_of (run (post_quote Demo.number_text Demo.text_number index_js Demo.quote_phone_4)
                 [] Demo.shop) = Some 200%Z.
Proof.
  refine (proj2 (proj1 (quote_is_200_exactly_when_both_rows_are_found
                          Demo.number_text Demo.text_number index_js Demo.quote_phone_4
                          [] Demo.shop (JString "A1") (JNumber 4) _ eq_refl eq_refl)) _).
  - constructor.
  - split; [exists Demo.phone | exists Demo.four_weeks]; vm_compute; reflexivity.
Defined.
